(** * Unmanic plugins: [remove_stream_by_language] and [encoder_audio_custom]

    A shallow embedding of the two plugin modules
    [source/remove_stream_by_language/plugin.py] and
    [source/encoder_audio_custom/plugin.py], and the properties of their
    stream predicates, argument builders and runner hooks.

    Conventions of the embedding:
    - Python [str] values are Rocq strings of ASCII characters; [lower],
      [strip], [split] and [in] act as CPython does on ASCII text.
    - A Python dict is a [gmap] with string keys; [d.get(k)] is [d !! k].
    - Code that logs, probes a file or raises runs in the monad [M]: a
      trace of events together with a value or an exception.
    - The helper library [lib.ffmpeg] ([StreamMapper], [Probe], [Parser]) is
      not part of the plugin sources; the hooks take its operations as an
      interface record [FFmpegLib]. *)

From Stdlib Require Import ZArith String Ascii List Bool Lia DecimalString.
From stdpp Require Import base option gmap strings.
Import ListNotations.

Local Open Scope string_scope.
Local Open Scope Z_scope.

(** ** Python primitives *)
Module Py.

(** *** Strings *)

Definition is_upper (c : ascii) : bool :=
  let n := nat_of_ascii c in (Nat.leb 65 n && Nat.leb n 90)%bool.

Definition lower_ascii (c : ascii) : ascii :=
  if is_upper c then ascii_of_nat (nat_of_ascii c + 32) else c.

(** [s.lower()] *)
Fixpoint lower (s : string) : string :=
  match s with
  | EmptyString => EmptyString
  | String c r => String (lower_ascii c) (lower r)
  end.

(** [c.isspace()] on ASCII: TAB, LF, VT, FF, CR, FS, GS, RS, US, SPACE. *)
Definition is_space (c : ascii) : bool :=
  let n := nat_of_ascii c in
  ((Nat.leb 9 n && Nat.leb n 13) || (Nat.leb 28 n && Nat.leb n 32))%bool.

Fixpoint lstrip (s : string) : string :=
  match s with
  | EmptyString => EmptyString
  | String c r => if is_space c then lstrip r else s
  end.

Fixpoint rstrip (s : string) : string :=
  match s with
  | EmptyString => EmptyString
  | String c r =>
      match rstrip r with
      | EmptyString => if is_space c then EmptyString else String c EmptyString
      | r' => String c r'
      end
  end.

(** [s.strip()] *)
Definition strip (s : string) : string := rstrip (lstrip s).

(** [s.startswith(p)] *)
Fixpoint startswith (p s : string) : bool :=
  match p, s with
  | EmptyString, _ => true
  | String _ _, EmptyString => false
  | String a p', String b s' => (Ascii.eqb a b && startswith p' s')%bool
  end.

(** [sub in s] for two strings *)
Fixpoint contains (sub s : string) : bool :=
  (startswith sub s ||
   match s with
   | EmptyString => false
   | String _ r => contains sub r
   end)%bool.

(** Cut [s] at every character satisfying [sep]; never returns []. *)
Fixpoint split_by (sep : ascii -> bool) (s : string) : list string :=
  match s with
  | EmptyString => [EmptyString]
  | String c r =>
      if sep c then EmptyString :: split_by sep r
      else match split_by sep r with
           | h :: t => String c h :: t
           | [] => [String c EmptyString]
           end
  end.

(** truthiness of a [str] *)
Definition nonempty (s : string) : bool :=
  match s with EmptyString => false | _ => true end.

(** [s.split(',')] *)
Definition split_comma (s : string) : list string :=
  split_by (Ascii.eqb ",") s.

(** [list(filter(None, l))] on a list of strings *)
Definition filter_none (l : list string) : list string :=
  List.filter nonempty l.

(** [s.split()]: cut at runs of whitespace, no empty words. *)
Definition split_ws (s : string) : list string :=
  List.filter nonempty (split_by is_space s).

(** [str(z)] for an [int] *)
Definition str_of_Z (z : Z) : string := NilZero.string_of_int (Z.to_int z).

Definition is_digit (c : ascii) : bool :=
  let n := nat_of_ascii c in (Nat.leb 48 n && Nat.leb n 57)%bool.

Definition digit_value (c : ascii) : Z := Z.of_nat (nat_of_ascii c - 48).

(** Decimal digits with single underscores between digits, as the
    literal grammar of [int(str)] has them. [prev] tells whether the
    previous character was a digit. *)
Fixpoint digits_value (acc : Z) (prev : bool) (s : string) : option Z :=
  match s with
  | EmptyString => if prev then Some acc else None
  | String c r =>
      if is_digit c then digits_value (10 * acc + digit_value c) true r
      else if Ascii.eqb c "_" then
             if prev then digits_value acc false r else None
           else None
  end.

(** The blanks [int] skips around an ASCII literal: TAB, LF, VT, FF, CR
    and SPACE. This is C's [isspace], narrower than [str.isspace]: the
    separators FS, GS, RS and US, which [strip] removes, make [int]
    fail. *)
Definition is_c_space (c : ascii) : bool :=
  let n := nat_of_ascii c in
  ((Nat.leb 9 n && Nat.leb n 13) || Nat.eqb n 32)%bool.

Fixpoint lskip (blank : ascii -> bool) (s : string) : string :=
  match s with
  | EmptyString => EmptyString
  | String c r => if blank c then lskip blank r else s
  end.

Fixpoint rskip (blank : ascii -> bool) (s : string) : string :=
  match s with
  | EmptyString => EmptyString
  | String c r =>
      match rskip blank r with
      | EmptyString => if blank c then EmptyString else String c EmptyString
      | r' => String c r'
      end
  end.

(** [sys.int_info.default_max_str_digits]: a literal with more digits
    than this is refused. *)
Definition max_str_digits : nat := 4300.

(** The digits of a literal, underscores left out. *)
Fixpoint count_digits (s : string) : nat :=
  match s with
  | EmptyString => O
  | String c r => if is_digit c then S (count_digits r) else count_digits r
  end.

(** The literal after its optional sign, within the digit limit. *)
Definition magnitude (s : string) : option Z :=
  if Nat.leb (count_digits s) max_str_digits then digits_value 0 false s
  else None.

(** [int(s)] for a [str]; [None] stands for [ValueError]. *)
Definition int_of_string (s : string) : option Z :=
  match rskip is_c_space (lskip is_c_space s) with
  | String "+" r => magnitude r
  | String "-" r => Z.opp <$> magnitude r
  | t => magnitude t
  end.

(** *** Values *)

(** The scalars a settings field or a probe field can hold. *)
Inductive Scalar : Type :=
| PyNone
| PyBool (b : bool)
| PyInt (z : Z)
| PyStr (s : string).

(** [bool(x)] *)
Definition truthy (x : Scalar) : bool :=
  match x with
  | PyNone => false
  | PyBool b => b
  | PyInt z => negb (z =? 0)
  | PyStr s => nonempty s
  end.

(** ['{}'.format(x)] *)
Definition str (x : Scalar) : string :=
  match x with
  | PyNone => "None"
  | PyBool true => "True"
  | PyBool false => "False"
  | PyInt z => str_of_Z z
  | PyStr s => s
  end.

Definition of_option_Z (o : option Z) : Scalar :=
  match o with Some z => PyInt z | None => PyNone end.

(** *** Exceptions and log levels *)

Inductive Exn : Type :=
| AttributeError
| TypeError
| ValueError.

Inductive Result (A : Type) : Type :=
| Ok (a : A)
| Raise (e : Exn).
Arguments Ok {A} a.
Arguments Raise {A} e.

Inductive Level : Type := DEBUG | WARNING.

End Py.

(** ** Data shared with the helper library [lib.ffmpeg] *)
Module FFmpeg.
Import Py.

(** One entry of the probe's [streams] list: a dict read with [.get]. *)
Record StreamInfo : Type := {
  index : option Z;
  codec_type : option string;
  codec_name : option string;
  channels : option Z;
  tags : option (gmap string string)
}.

Record ProbeResult : Type := {
  format : gmap string Scalar;
  streams : list StreamInfo
}.

(** Values held by the [data] dict of a runner hook. *)
Inductive Val : Type :=
| VScalar (x : Scalar)
| VList (l : list string)
| VParseProgress (p : ProbeResult)
| VOther (tag : nat).

Definition VNone : Val := VScalar PyNone.
Definition VTrue : Val := VScalar (PyBool true).
Definition VFalse : Val := VScalar (PyBool false).

(** [d.get(k)] *)
Definition get (d : gmap string Val) (k : string) : Val :=
  default VNone (d !! k).

(** What a hook does besides returning: a log record (format string and
    its arguments) or a call of [Probe.file]. *)
Inductive Event : Type :=
| Log (logger : string) (lvl : Level) (template : string) (args : list Val)
| ProbeFile (allowed_mimetypes : list string) (path : Val).

Definition M (A : Type) : Type := (list Event * Result A)%type.

Definition ret {A} (a : A) : M A := ([], Ok a).

Definition bind {A B} (m : M A) (f : A -> M B) : M B :=
  match m with
  | (t, Ok a) => let (t2, r) := f a in ((t ++ t2)%list, r)
  | (t, Raise e) => (t, Raise e)
  end.

Definition raise {A} (e : Exn) : M A := ([], Raise e).

Definition emit (e : Event) : M unit := ([e], Ok tt).

Definition trace {A} (m : M A) : list Event := fst m.
Definition outcome {A} (m : M A) : Result A := snd m.

(** What [custom_stream_mapping] returns. *)
Record Mapping : Type := {
  stream_mapping : list string;
  stream_encoding : list string
}.

(** The operations of [lib.ffmpeg] the plugins call. A [StreamMapper]
    object is a value of [MapperT]; methods that mutate it return the
    new object. The two template methods receive the plugin's overrides
    [test_stream_needs_processing] and [custom_stream_mapping]. *)
Record FFmpegLib : Type := {
  MapperT : Type;
  (* Probe(logger, allowed_mimetypes).file(path): None when falsy *)
  probe_file : list string -> Val -> option ProbeResult;
  (* StreamMapper.__init__(logger, processing_stream_type) *)
  mapper_new : string -> list string -> MapperT;
  set_probe : MapperT -> ProbeResult -> MapperT;
  set_input_file : MapperT -> Val -> MapperT;
  set_output_file : MapperT -> Val -> MapperT;
  (* attributes read by the plugins *)
  audio_stream_count : MapperT -> Z;
  input_file : MapperT -> Val;
  streams_need_processing :
    (MapperT -> StreamInfo -> M bool) -> MapperT -> M (bool * MapperT);
  get_ffmpeg_args :
    (MapperT -> StreamInfo -> M bool) ->
    (MapperT -> StreamInfo -> Z -> M Mapping) ->
    MapperT -> M (list string)
}.

(** What a file-test hook returns: the [data] dict, or the bare [False]
    of an early exit. *)
Inductive HookResult : Type :=
| RetFalse
| RetData (data : gmap string Val).

End FFmpeg.

Declare Scope py_scope.
Delimit Scope py_scope with py.
(** [let* x := m in k] runs [m], then [k] on its value. *)
Notation "'let*' x ':=' m 'in' k" := (FFmpeg.bind m (fun x => k))
  (at level 10, x name, m at level 100, k at level 200, only parsing) : py_scope.

(** ** [source/remove_stream_by_language/plugin.py] *)
Module RemoveStreamByLanguage.
Import Py FFmpeg.
Local Open Scope py_scope.

Definition logger : string := "Unmanic.Plugin.remove_stream_by_language".

Definition warning (template : string) (args : list Val) : M unit :=
  emit (Log logger WARNING template args).
Definition debug (template : string) (args : list Val) : M unit :=
  emit (Log logger DEBUG template args).

(** [Settings]: what [get_setting] returns for each key. *)
Record Settings : Type := {
  languages_audio : string;
  languages_subtitle : string;
  title_audio_or_sub : string
}.

Definition default_settings : Settings :=
  {| languages_audio := ""; languages_subtitle := ""; title_audio_or_sub := "" |}.

(** [stream_tags and True in list(k.lower() in [name] for k in stream_tags)] *)
Definition has_tag (stream_tags : option (gmap string string)) (name : string) : bool :=
  match stream_tags with
  | None => false
  | Some d =>
      match map_to_list d with
      | [] => false
      | kvs => existsb (fun kv => String.eqb (lower (fst kv)) name) kvs
      end
  end.

(** [stream_tags.get(key, '')], reached only with a non-empty dict. *)
Definition tag_value (stream_tags : option (gmap string string)) (key : string) : string :=
  match stream_tags with
  | None => ""
  | Some d => default "" (d !! key)
  end.

(** Lines 62-68: the loop over the configured title phrases. *)
Definition title_matches (settings : Settings)
    (stream_tags : option (gmap string string)) : bool :=
  let titles_list := title_audio_or_sub settings in
  if nonempty titles_list then
    let title := lower (tag_value stream_tags "title") in
    let titles := filter_none (split_comma titles_list) in
    existsb (fun _title => contains (lower _title) title) titles
  else false.

(** Lines 79-88: the loop over the configured language codes. *)
Definition language_matches (language_list : string)
    (stream_tags : option (gmap string string)) : bool :=
  if nonempty language_list then
    let languages := filter_none (split_comma language_list) in
    existsb (fun language =>
               let language := strip language in
               (nonempty language &&
                contains (lower language) (lower (tag_value stream_tags "language")))%bool)
            languages
  else false.

Section Plugin.
Variable lib : FFmpegLib.
Variable settings : Settings.

Definition test_tags_for_search_string (self : MapperT lib)
    (stream_tags : option (gmap string string)) (stream_id : Scalar)
    (codec_type : string) : M bool :=
  if (has_tag stream_tags "title" && title_matches settings stream_tags)%bool then
    ret true
  else if has_tag stream_tags "language" then
    if String.eqb codec_type "subtitle" then
      ret (language_matches (languages_subtitle settings) stream_tags)
    else if audio_stream_count lib self <=? 1 then
      let* _ := warning "Video file '{}' has only 1 audio stream skipping strip."
                        [input_file lib self] in
      ret false
    else
      ret (language_matches (languages_audio settings) stream_tags)
  else
    let* _ := warning "Audio/Subtitle stream #{} in file '{}' has no 'language' tag. Ignoring."
                      [VScalar stream_id; input_file lib self] in
    ret false.

Definition test_stream_needs_processing (self : MapperT lib)
    (stream_info : StreamInfo) : M bool :=
  match codec_type stream_info with
  | None => raise AttributeError
  | Some ct =>
      let* b := test_tags_for_search_string self (tags stream_info)
             (of_option_Z (index stream_info)) (lower ct) in
      if b then ret true else ret false
  end.

Definition custom_stream_mapping (self : MapperT lib)
    (stream_info : StreamInfo) (stream_id : Z) : M Mapping :=
  ret {| stream_mapping := []; stream_encoding := [] |}.

(** [PluginStreamMapper()] *)
Definition new_mapper : MapperT lib :=
  mapper_new lib logger ["audio"; "subtitle"].

(** The mapper both hooks build before asking it for a verdict:
    [set_probe], then [set_input_file]. *)
Definition prepare_mapper (probe : ProbeResult) (abspath : Val) : MapperT lib :=
  let mapper := set_probe lib new_mapper probe in
  set_input_file lib mapper abspath.

Definition probe_video (path : Val) : M (option ProbeResult) :=
  let* _ := emit (ProbeFile ["video"] path) in
  ret (probe_file lib ["video"] path).

Definition on_library_management_file_test (data : gmap string Val) : M HookResult :=
  if (negb (nonempty (languages_subtitle settings)) &&
      negb (nonempty (languages_audio settings)))%bool then
    let* _ := debug "Plugin has not yet been configured with a list of languages to remove. Blocking everything." [] in
    ret RetFalse
  else
    let abspath := get data "path" in
    let* probed := probe_video abspath in
    match probed with
    | None => ret (RetData data)
    | Some probe =>
        let mapper := prepare_mapper probe abspath in
        let* r := streams_need_processing lib test_stream_needs_processing mapper in
        if fst r then
          let data := <["add_file_to_pending_tasks" := VTrue]> data in
          let* _ := debug "File '{}' should be added to task list. Probe found streams require processing." [abspath] in
          ret (RetData data)
        else
          let* _ := debug "File '{}' does not contain streams that require processing." [abspath] in
          ret (RetData data)
    end.

Definition on_worker_process (data : gmap string Val) : M (gmap string Val) :=
  let data := <["exec_command" := VList []]> data in
  let data := <["repeat" := VFalse]> data in
  let abspath := get data "file_in" in
  let* probed := probe_video abspath in
  match probed with
  | None => ret data
  | Some probe =>
      let mapper := prepare_mapper probe abspath in
      let* r := streams_need_processing lib test_stream_needs_processing mapper in
      if fst r then
        let mapper := set_output_file lib (snd r) (get data "file_out") in
        let* ffmpeg_args := get_ffmpeg_args lib test_stream_needs_processing
                         custom_stream_mapping mapper in
        let data := <["exec_command" := VList ("ffmpeg" :: ffmpeg_args)]> data in
        let data := <["command_progress_parser" := VParseProgress probe]> data in
        ret data
      else ret data
  end.

End Plugin.

End RemoveStreamByLanguage.

(** ** [source/encoder_audio_custom/plugin.py] *)
Module EncoderAudioCustom.
Import Py FFmpeg.
Local Open Scope py_scope.

Definition logger : string := "Unmanic.Plugin.encoder_audio_custom".

Definition debug (template : string) (args : list Val) : M unit :=
  emit (Log logger DEBUG template args).

(** [Settings]: what [get_setting] returns for each key. The bitrate
    comes from a text input, so it is kept as a scalar of any kind. *)
Record Settings : Type := {
  advanced : bool;
  custom_options : string;
  if_not_found : string;
  use_codec_lib : string;
  bitrate : Scalar
}.

Definition default_settings : Settings :=
  {| advanced := false;
     custom_options := "";
     if_not_found := "opus";
     use_codec_lib := "libopus";
     bitrate := PyInt 0 |}.

(** [int(x)]: [TypeError] on [None], [ValueError] on a malformed string. *)
Definition int (x : Scalar) : M Z :=
  match x with
  | PyNone => raise TypeError
  | PyBool b => ret (if b then 1 else 0)
  | PyInt z => ret z
  | PyStr s =>
      match int_of_string s with
      | Some z => ret z
      | None => raise ValueError
      end
  end.

Definition calculate_bitrate (stream_info : StreamInfo) : M Z :=
  let channels := of_option_Z (channels stream_info) in
  if negb (truthy channels) then
    let* _ := debug "Stream did not contain 'channels'. Using community default (64k)." [] in
    ret 64
  else
    let* n := int channels in
    let bitrate := 64 * n in
    let* _ := debug "Based on Number of Channels ({}) we calculated the bitrate to be ({}k)"
                    [VScalar (PyInt n); VScalar (PyInt bitrate)] in
    ret bitrate.

(** ['...{}'.format(x)] with the placeholder last. *)
Definition fmt (pre : string) (x : Scalar) : string := pre ++ str x.

Section Plugin.
Variable lib : FFmpegLib.
Variable settings : Settings.

Definition test_stream_needs_processing (self : MapperT lib)
    (stream_info : StreamInfo) : M bool :=
  match codec_name stream_info with
  | None => raise AttributeError
  | Some name =>
      if existsb (String.eqb (lower name)) [if_not_found settings] then ret false
      else ret true
  end.

Definition custom_stream_mapping (self : MapperT lib)
    (stream_info : StreamInfo) (stream_id : Z) : M Mapping :=
  let toCodec := use_codec_lib settings in
  let stream_encoding := [fmt "-c:a:" (PyInt stream_id); toCodec] in
  let bitrate := bitrate settings in
  let* auto := (if negb (truthy bitrate) then ret true
                else let* n := int bitrate in ret (n =? 0)) in
  let* bitrate := (if auto : bool
                   then let* b := calculate_bitrate stream_info in ret (PyInt b)
                   else ret bitrate) in
  let stream_encoding :=
    (stream_encoding ++
     [ fmt "-b:a:" (PyInt stream_id);
       (str bitrate ++ "k")%string;
       fmt "-ac:a:" (PyInt stream_id);
       str (PyInt (default 0 (channels stream_info)));
       fmt "-af:a:" (PyInt stream_id);
       fmt "aformat=" (PyStr "channel_layouts='7.1|5.1|stereo|mono'") ])%list in
  let stream_encoding :=
    if advanced settings
    then (stream_encoding ++ split_ws (custom_options settings))%list
    else stream_encoding in
  ret {| stream_mapping := ["-map"; fmt "0:a:" (PyInt stream_id)];
         stream_encoding := stream_encoding |}.

(** [PluginStreamMapper()] *)
Definition new_mapper : MapperT lib := mapper_new lib logger ["audio"].

(** The mapper both hooks build before asking it for a verdict. *)
Definition prepare_mapper (probe : ProbeResult) : MapperT lib :=
  set_probe lib new_mapper probe.

Definition probe_audio_video (path : Val) : M (option ProbeResult) :=
  let* _ := emit (ProbeFile ["audio"; "video"] path) in
  ret (probe_file lib ["audio"; "video"] path).

Definition on_library_management_file_test (data : gmap string Val) : M HookResult :=
  let abspath := get data "path" in
  let* probed := probe_audio_video abspath in
  match probed with
  | None => ret (RetData data)
  | Some probe =>
      let mapper := prepare_mapper probe in
      let* r := streams_need_processing lib test_stream_needs_processing mapper in
      if fst r then
        let data := <["add_file_to_pending_tasks" := VTrue]> data in
        let* _ := debug "File '{}' should be added to task list. Probe found streams require processing." [abspath] in
        ret (RetData data)
      else
        let* _ := debug "File '{}' does not contain streams require processing." [abspath] in
        ret (RetData data)
  end.

Definition on_worker_process (data : gmap string Val) : M (gmap string Val) :=
  let data := <["exec_command" := VList []]> data in
  let data := <["repeat" := VFalse]> data in
  let abspath := get data "file_in" in
  let* probed := probe_audio_video abspath in
  match probed with
  | None => ret data
  | Some probe =>
      let mapper := prepare_mapper probe in
      let* r := streams_need_processing lib test_stream_needs_processing mapper in
      if fst r then
        let mapper := set_input_file lib (snd r) abspath in
        let mapper := set_output_file lib mapper (get data "file_out") in
        let* ffmpeg_args := get_ffmpeg_args lib test_stream_needs_processing
                              custom_stream_mapping mapper in
        let data := <["exec_command" := VList ("ffmpeg" :: ffmpeg_args)]> data in
        let data := <["command_progress_parser" := VParseProgress probe]> data in
        ret data
      else ret data
  end.

End Plugin.

(** *** The settings form

    [Settings.__init__] builds [form_settings] from four private methods;
    each returns a dict of strings and hides its field according to the
    [advanced] setting. *)

Definition __set_if_not_found_options_form_settings (settings : Settings)
    : gmap string string :=
  let values := <["input_type" := "text"]>
                  {["label" := "Does the stream use this codec?"]} in
  if advanced settings then <["display" := "hidden"]> values else values.

Definition __set_use_codec_lib_options_form_settings (settings : Settings)
    : gmap string string :=
  let values := <["input_type" := "text"]>
                  {["label" := "If not convert to this stream."]} in
  if advanced settings then <["display" := "hidden"]> values else values.

Definition __set_bitrate_options_form_settings (settings : Settings)
    : gmap string string :=
  let values := <["input_type" := "text"]>
                  {["label" := "Bitrate (0 for auto calculate) i.e. (Channels x 64)"]} in
  if advanced settings then <["display" := "hidden"]> values else values.

Definition __set_custom_options_form_settings (settings : Settings)
    : gmap string string :=
  let values := <["input_type" := "textarea"]>
                  {["label" := "Write your own custom audio options"]} in
  if negb (advanced settings) then <["display" := "hidden"]> values else values.

(** [self.form_settings] as [__init__] leaves it. *)
Definition form_settings (settings : Settings) : gmap string (gmap string string) :=
  <["advanced" := {["label" := "Write your own FFmpeg params"]}]>
  (<["custom_options" := __set_custom_options_form_settings settings]>
  (<["if_not_found" := __set_if_not_found_options_form_settings settings]>
  (<["use_codec_lib" := __set_use_codec_lib_options_form_settings settings]>
  {["bitrate" := __set_bitrate_options_form_settings settings]}))).

End EncoderAudioCustom.

(** ** A reference [StreamMapper] *)
Module StreamMapperModel.
Import Py FFmpeg.
Local Open Scope py_scope.

(** Modelled from the spec: the [StreamMapper] and [Probe] classes of
    [lib.ffmpeg], which the plugins import but which are not among the
    plugin sources. The evaluation pass follows section 4.2 of the
    specification: streams are visited in probe order, a stream whose
    codec type is outside the mapper's scope is skipped, [stream_id]
    counts the earlier in-scope streams of the same codec type, and the
    fragments of the streams the predicate selects are appended in
    order. The audio stream count is the number of audio streams of the
    probe. The global arguments of the command assembler, which the
    specification does not list, are left out of [get_ffmpeg_args]. *)
Record Mapper : Type := {
  processing_stream_type : list string;
  probe : option ProbeResult;
  input_file : Val;
  output_file : Val
}.

Definition has_type (ct : string) (s : StreamInfo) : bool :=
  match codec_type s with
  | Some c => String.eqb (lower c) ct
  | None => false
  end.

Definition in_scope (m : Mapper) (s : StreamInfo) : bool :=
  existsb (fun ct => has_type ct s) (processing_stream_type m).

Definition probed_streams (m : Mapper) : list StreamInfo :=
  match probe m with
  | Some p => streams p
  | None => []
  end.

Definition count_type (ct : string) (l : list StreamInfo) : Z :=
  Z.of_nat (List.length (List.filter (has_type ct) l)).

(** Modelled from the spec: the "total audio streams in this mapper's
    scope" that a predicate may read; the attribute itself belongs to the
    absent [StreamMapper]. *)
Definition audio_stream_count (m : Mapper) : Z :=
  count_type "audio" (probed_streams m).

(** Modelled from the spec: the verdict of the evaluation pass of the
    absent [StreamMapper.streams_need_processing], true when the predicate
    selects at least one in-scope stream. *)
Fixpoint any_needs (pred : Mapper -> StreamInfo -> M bool) (m : Mapper)
    (todo : list StreamInfo) : M bool :=
  match todo with
  | [] => ret false
  | s :: rest =>
      if in_scope m s then
        let* b := pred m s in
        let* b' := any_needs pred m rest in
        ret (b || b')%bool
      else any_needs pred m rest
  end.

Definition no_fragment : Mapping :=
  {| stream_mapping := []; stream_encoding := [] |}.

Definition stream_id_of (seen : list StreamInfo) (s : StreamInfo) : Z :=
  match codec_type s with
  | Some c => count_type (lower c) seen
  | None => 0
  end.

(** Modelled from the spec: the fragments accumulated by the evaluation
    pass of the absent [StreamMapper.get_ffmpeg_args]. *)
Fixpoint fragments (pred : Mapper -> StreamInfo -> M bool)
    (builder : Mapper -> StreamInfo -> Z -> M Mapping) (m : Mapper)
    (seen todo : list StreamInfo) : M Mapping :=
  match todo with
  | [] => ret no_fragment
  | s :: rest =>
      if in_scope m s then
        let* b := pred m s in
        let* own := (if b : bool then builder m s (stream_id_of seen s)
                     else ret no_fragment) in
        let* more := fragments pred builder m (s :: seen) rest in
        ret {| stream_mapping := stream_mapping own ++ stream_mapping more;
               stream_encoding := stream_encoding own ++ stream_encoding more |}%list
      else fragments pred builder m seen rest
  end.

(** Modelled from the spec: an instance of the absent [lib.ffmpeg] whose
    probe knows the files listed by [files]. *)
Definition lib (files : string -> option ProbeResult) : FFmpegLib :=
  {| MapperT := Mapper;
     probe_file := fun _ path =>
       match path with
       | VScalar (PyStr p) => files p
       | _ => None
       end;
     mapper_new := fun _ types =>
       {| processing_stream_type := types; probe := None;
          input_file := VNone; output_file := VNone |};
     set_probe := fun m p =>
       {| processing_stream_type := processing_stream_type m; probe := Some p;
          input_file := input_file m; output_file := output_file m |};
     set_input_file := fun m f =>
       {| processing_stream_type := processing_stream_type m; probe := probe m;
          input_file := f; output_file := output_file m |};
     set_output_file := fun m f =>
       {| processing_stream_type := processing_stream_type m; probe := probe m;
          input_file := input_file m; output_file := f |};
     FFmpeg.audio_stream_count := audio_stream_count;
     FFmpeg.input_file := input_file;
     streams_need_processing := fun pred m =>
       let* b := any_needs pred m (probed_streams m) in ret (b, m);
     get_ffmpeg_args := fun pred builder m =>
       let* f := fragments pred builder m [] (probed_streams m) in
       ret (stream_mapping f ++ stream_encoding f)%list |}.

End StreamMapperModel.

(** ** Observations and sample inputs *)
Module Observations.
Import Py FFmpeg.

(** The bitrate value of a builder result: the entry after ['-b:a:N']. *)
Definition bitrate_argument (m : M Mapping) : option string :=
  match outcome m with
  | Ok r => nth_error (stream_encoding r) 3
  | Raise _ => None
  end.

(** The configured bitrate is unset ([None] or the empty text) or equals
    zero (the integer, or a text that [int] reads as zero). *)
Inductive bitrate_unset_or_zero : Scalar -> Prop :=
| bitrate_none : bitrate_unset_or_zero PyNone
| bitrate_empty : bitrate_unset_or_zero (PyStr "")
| bitrate_zero : bitrate_unset_or_zero (PyInt 0)
| bitrate_zero_text (s : string) :
    int_of_string s = Some 0 -> bitrate_unset_or_zero (PyStr s).

(** The verdict of a [streams_need_processing] call that returned. *)
Definition verdict {X : Type} (m : M (bool * X)) : option bool :=
  match outcome m with
  | Ok r => Some (fst r)
  | Raise _ => None
  end.

(** The [data] dict as [on_worker_process] leaves it when it has set
    nothing but its two defaults. *)
Definition no_command (data : gmap string Val) : gmap string Val :=
  <["repeat" := VFalse]> (<["exec_command" := VList []]> data).

(** A worker hook returned, and returned [data] with the empty command. *)
Definition returns_no_command (data : gmap string Val)
    (m : M (gmap string Val)) : Prop :=
  exists d, outcome m = Ok d /\
            d = no_command data /\
            d !! "exec_command" = Some (VList []) /\
            d !! "repeat" = Some VFalse.

(** The diagnostic of [calculate_bitrate] for an unknown channel count. *)
Definition channels_diagnostic : Event :=
  Log EncoderAudioCustom.logger DEBUG
      "Stream did not contain 'channels'. Using community default (64k)." [].

(** The diagnostic of [test_tags_for_search_string] for a stream without
    a language tag. *)
Definition no_language_diagnostic (stream_id : Scalar) (file : Val) : Event :=
  Log RemoveStreamByLanguage.logger WARNING
      "Audio/Subtitle stream #{} in file '{}' has no 'language' tag. Ignoring."
      [VScalar stream_id; file].

(** The log record of the unconfigured file test. *)
Definition not_configured_diagnostic : Event :=
  Log RemoveStreamByLanguage.logger DEBUG
      "Plugin has not yet been configured with a list of languages to remove. Blocking everything."
      [].
(** A form field is hidden when its entry carries [display = hidden]. *)
Definition hidden (form : gmap string (gmap string string)) (key : string) : Prop :=
  form !! key ≫= (fun values => values !! "display") = Some "hidden".

(** The encoder settings with the [advanced] switch set to [b]. *)
Definition with_advanced (b : bool) (s : EncoderAudioCustom.Settings)
    : EncoderAudioCustom.Settings :=
  {| EncoderAudioCustom.advanced := b;
     EncoderAudioCustom.custom_options := EncoderAudioCustom.custom_options s;
     EncoderAudioCustom.if_not_found := EncoderAudioCustom.if_not_found s;
     EncoderAudioCustom.use_codec_lib := EncoderAudioCustom.use_codec_lib s;
     EncoderAudioCustom.bitrate := EncoderAudioCustom.bitrate s |}.

(** Two remover configurations that differ in letter case only. *)
Definition same_up_to_case (s1 s2 : RemoveStreamByLanguage.Settings) : Prop :=
  lower (RemoveStreamByLanguage.languages_audio s1)
  = lower (RemoveStreamByLanguage.languages_audio s2) /\
  lower (RemoveStreamByLanguage.languages_subtitle s1)
  = lower (RemoveStreamByLanguage.languages_subtitle s2) /\
  lower (RemoveStreamByLanguage.title_audio_or_sub s1)
  = lower (RemoveStreamByLanguage.title_audio_or_sub s2).

(** The language list [test_tags_for_search_string] consults for a stream
    of the given (lowercased) codec type. *)
Definition language_list_for (settings : RemoveStreamByLanguage.Settings)
    (codec_type : string) : string :=
  if String.eqb codec_type "subtitle"
  then RemoveStreamByLanguage.languages_subtitle settings
  else RemoveStreamByLanguage.languages_audio settings.

(** The [data] dict with the file marked for the pending tasks. *)
Definition flagged (data : gmap string Val) : gmap string Val :=
  <["add_file_to_pending_tasks" := VTrue]> data.

(** The [data] dict a worker hook returns when it has built a command. *)
Definition with_command (data : gmap string Val) (ffmpeg_args : list string)
    (probe : ProbeResult) : gmap string Val :=
  <["command_progress_parser" := VParseProgress probe]>
    (<["exec_command" := VList ("ffmpeg" :: ffmpeg_args)]> (no_command data)).

(** The test [not bitrate or int(bitrate) == 0] of the encode builder. *)
Definition takes_auto (b : Scalar) : M bool :=
  if negb (truthy b) then ret true
  else bind (EncoderAudioCustom.int b) (fun n => ret (n =? 0)).

(** The configured bitrate is a non-empty text that [int] rejects. *)
Definition malformed_bitrate (b : Scalar) : Prop :=
  exists s, b = PyStr s /\ nonempty s = true /\ int_of_string s = None.

(** The remover has a language list to work with. *)
Definition configured (settings : RemoveStreamByLanguage.Settings) : Prop :=
  nonempty (RemoveStreamByLanguage.languages_subtitle settings) = true \/
  nonempty (RemoveStreamByLanguage.languages_audio settings) = true.

(** The keys a worker hook writes. *)
Definition worker_key (k : string) : Prop :=
  k = "exec_command" \/ k = "repeat" \/ k = "command_progress_parser".

(** A computation raised. *)
Definition raises {A : Type} (m : M A) : Prop :=
  exists e, outcome m = Raise e.
End Observations.

Module Samples.
Import Py FFmpeg.

Definition audio_stream (name : string) (ch : option Z)
    (t : option (gmap string string)) : StreamInfo :=
  {| index := Some 1; codec_type := Some "audio"; codec_name := Some name;
     channels := ch; tags := t |}.

Definition video_stream : StreamInfo :=
  {| index := Some 0; codec_type := Some "video"; codec_name := Some "h264";
     channels := None; tags := None |}.

Definition commentary_tags : gmap string string :=
  <["title" := "Director Commentary"]> {["language" := "eng"]}.

Definition commentary_audio : StreamInfo :=
  audio_stream "aac" (Some 2) (Some commentary_tags).

(** A film with one video stream and a single audio stream. *)
Definition film : ProbeResult :=
  {| format := ∅; streams := [video_stream; commentary_audio] |}.

(** A film whose only audio stream is already Opus. *)
Definition opus_film : ProbeResult :=
  {| format := ∅; streams := [video_stream; audio_stream "opus" (Some 2) None] |}.

Definition files (path : string) : option ProbeResult :=
  if String.eqb path "/library/film.mkv" then Some film
  else if String.eqb path "/library/opus.mkv" then Some opus_film
  else None.

Definition lib : FFmpegLib := StreamMapperModel.lib files.

Definition film_path : Val := VScalar (PyStr "/library/film.mkv").
Definition opus_path : Val := VScalar (PyStr "/library/opus.mkv").
Definition missing_path : Val := VScalar (PyStr "/library/missing.mkv").

Definition film_mapper : MapperT lib :=
  RemoveStreamByLanguage.prepare_mapper lib film film_path.

(** The [data] dict of a worker task on the Opus film. *)
Definition opus_task : gmap string Val :=
  <["file_in" := opus_path]> (<["file_out" := film_path]> ∅).

(** The [data] dict of a task on a file the probe cannot read. *)
Definition missing_task : gmap string Val :=
  <["file_in" := missing_path]> (<["path" := missing_path]> ∅).

(** Remove English audio and anything titled as a commentary. *)
Definition remove_commentary : RemoveStreamByLanguage.Settings :=
  {| RemoveStreamByLanguage.languages_audio := "eng";
     RemoveStreamByLanguage.languages_subtitle := "";
     RemoveStreamByLanguage.title_audio_or_sub := "commentary" |}.

(** Only title phrases are configured. *)
Definition title_only : RemoveStreamByLanguage.Settings :=
  {| RemoveStreamByLanguage.languages_audio := "";
     RemoveStreamByLanguage.languages_subtitle := "";
     RemoveStreamByLanguage.title_audio_or_sub := "commentary" |}.

(** The default encoder settings with the acceptable codec capitalised. *)
Definition capitalised_codec : EncoderAudioCustom.Settings :=
  {| EncoderAudioCustom.advanced := false;
     EncoderAudioCustom.custom_options := "";
     EncoderAudioCustom.if_not_found := "Opus";
     EncoderAudioCustom.use_codec_lib := "libopus";
     EncoderAudioCustom.bitrate := PyInt 0 |}.
(** The [data] dict of a file test and of a worker task on the film. *)
Definition film_task : gmap string Val :=
  <["file_in" := film_path]> (<["file_out" := opus_path]>
    (<["path" := film_path]> ∅)).

(** Remove English and French audio, written in capitals. *)
Definition remove_capitals : RemoveStreamByLanguage.Settings :=
  {| RemoveStreamByLanguage.languages_audio := "ENG, FRE";
     RemoveStreamByLanguage.languages_subtitle := "";
     RemoveStreamByLanguage.title_audio_or_sub := "" |}.

Definition remove_small : RemoveStreamByLanguage.Settings :=
  {| RemoveStreamByLanguage.languages_audio := "eng, fre";
     RemoveStreamByLanguage.languages_subtitle := "";
     RemoveStreamByLanguage.title_audio_or_sub := "" |}.

(** Remove German subtitles. *)
Definition remove_german_subtitles : RemoveStreamByLanguage.Settings :=
  {| RemoveStreamByLanguage.languages_audio := "";
     RemoveStreamByLanguage.languages_subtitle := "ger";
     RemoveStreamByLanguage.title_audio_or_sub := "" |}.

(** A film with two audio streams. *)
Definition dubbed_film : ProbeResult :=
  {| format := ∅;
     streams := [video_stream;
                 audio_stream "aac" (Some 2) (Some {["language" := "eng"]});
                 audio_stream "aac" (Some 6) (Some {["language" := "fre"]})] |}.

Definition dubbed_mapper : MapperT lib :=
  RemoveStreamByLanguage.prepare_mapper lib dubbed_film film_path.

(** Encoder settings with a bitrate typed into the text field. *)
Definition typed_bitrate (text : string) : EncoderAudioCustom.Settings :=
  {| EncoderAudioCustom.advanced := false;
     EncoderAudioCustom.custom_options := "";
     EncoderAudioCustom.if_not_found := "opus";
     EncoderAudioCustom.use_codec_lib := "libopus";
     EncoderAudioCustom.bitrate := PyStr text |}.
(** A library like [lib] whose mapper fails when asked for its verdict. *)
Definition broken_lib : FFmpegLib :=
  {| MapperT := MapperT lib;
     probe_file := probe_file lib;
     mapper_new := mapper_new lib;
     set_probe := set_probe lib;
     set_input_file := set_input_file lib;
     set_output_file := set_output_file lib;
     audio_stream_count := audio_stream_count lib;
     input_file := input_file lib;
     streams_need_processing := fun _ _ => raise TypeError;
     get_ffmpeg_args := get_ffmpeg_args lib |}.
(** The text [0] followed by the file separator (0x1C), a character that
    [str.strip] removes and [int] does not skip. *)
Definition zero_then_separator : string :=
  String "0" (String (ascii_of_nat 28) EmptyString).
End Samples.

(** * Properties *)

(** ** The effect monad and the string primitives *)
Section MonadFacts.
Import Py FFmpeg.
Context {A B : Type}.

Lemma bind_ret_l (a : A) (f : A -> M B) : bind (ret a) f = f a.
Proof. unfold bind, ret. destruct (f a) as [t r]. reflexivity. Qed.

End MonadFacts.

Section ListFacts.
Context {A : Type}.

Lemma existsb_false_iff (f : A -> bool) (l : list A) :
  existsb f l = false <-> (forall x, In x l -> f x = false).
Proof.
  induction l as [|a l IH]; simpl.
  - split; [intros _ x [] | reflexivity].
  - rewrite orb_false_iff, IH. split.
    + intros [Ha Hl] x [<-|Hx]; auto.
    + intros H. split; [apply H; now left | intros x Hx; apply H; now right].
Qed.
End ListFacts.

Section StringFacts.
Import Py.

Lemma contains_empty_r (sub : string) :
  nonempty sub = true -> contains sub "" = false.
Proof. destruct sub; [discriminate | reflexivity]. Qed.

Lemma nonempty_lower (s : string) : nonempty (lower s) = nonempty s.
Proof. destruct s; reflexivity. Qed.

Lemma filter_none_nonempty (l : list string) (s : string) :
  In s (filter_none l) -> nonempty s = true.
Proof. unfold filter_none. rewrite filter_In. tauto. Qed.

(** An empty setting lists no phrase. *)
Lemma phrase_listed_nonempty (setting phrase : string) :
  In phrase (filter_none (split_comma setting)) -> nonempty setting = true.
Proof. destruct setting; [intros [] | reflexivity]. Qed.
End StringFacts.

(** ** [remove_stream_by_language]: the tag predicate *)
Section RemovePredicate.
Import Py FFmpeg RemoveStreamByLanguage.
Variable lib : FFmpegLib.
Variable settings : Settings.

(** A dict none of whose keys lowercases to [name] fails the key test. *)
Lemma has_tag_false (stream_tags : option (gmap string string)) (name : string) :
  (forall d k, stream_tags = Some d -> lower k = name -> d !! k = None) ->
  has_tag stream_tags name = false.
Proof.
  intros H. destruct stream_tags as [d|]; [|reflexivity]. unfold has_tag.
  assert (Hall : existsb (fun kv => String.eqb (lower (fst kv)) name)
                   (map_to_list d) = false);
    [|destruct (map_to_list d); [reflexivity | exact Hall]].
  apply existsb_false_iff. intros [k v] Hin.
  apply list_elem_of_In, elem_of_map_to_list in Hin. simpl.
  destruct (String.eqb_spec (lower k) name) as [Hk|]; [|reflexivity].
  rewrite (H d k eq_refl Hk) in Hin. discriminate.
Qed.

(** A dict with the key [k] passes the key test for [lower k]. *)
Lemma has_tag_true (d : gmap string string) (k v : string) :
  d !! k = Some v -> has_tag (Some d) (lower k) = true.
Proof.
  intros Hk. unfold has_tag.
  assert (Hin : In (k, v) (map_to_list d))
    by now apply list_elem_of_In, elem_of_map_to_list.
  assert (Hex : existsb (fun kv => String.eqb (lower (fst kv)) (lower k))
                  (map_to_list d) = true).
  { apply existsb_exists. exists (k, v).
    split; [assumption | apply String.eqb_refl]. }
  destruct (map_to_list d); [destruct Hin | exact Hex].
Qed.

Lemma title_matches_false (stream_tags : option (gmap string string)) :
  (forall phrase,
      In phrase (filter_none (split_comma (title_audio_or_sub settings))) ->
      contains (lower phrase) (lower (tag_value stream_tags "title")) = false) ->
  title_matches settings stream_tags = false.
Proof.
  intros H. unfold title_matches.
  destruct (nonempty (title_audio_or_sub settings)); [|reflexivity].
  now apply existsb_false_iff.
Qed.

(** The guard of the language branch: with at most one audio stream, a
    stream that is not a subtitle and whose title did not match is kept,
    whatever its language tag says. *)
Lemma language_guard_keeps_last_audio (self : MapperT lib)
    (stream_tags : option (gmap string string)) (stream_id : Scalar)
    (codec_type : string) :
  audio_stream_count lib self <= 1 ->
  codec_type <> "subtitle" ->
  (has_tag stream_tags "title" && title_matches settings stream_tags)%bool = false ->
  outcome (test_tags_for_search_string lib settings self stream_tags stream_id codec_type)
  = Ok false.
Proof.
  intros Hn Hct Ht. unfold test_tags_for_search_string. rewrite Ht.
  destruct (has_tag stream_tags "language"); [|reflexivity].
  destruct (String.eqb_spec codec_type "subtitle") as [|_]; [contradiction|].
  destruct (Z.leb_spec (audio_stream_count lib self) 1); [reflexivity | lia].
Qed.

(** A title that contains a configured phrase selects the stream before
    the audio stream count is looked at. *)
Lemma title_match_selects (self : MapperT lib) (d : gmap string string)
    (title phrase : string) (stream_id : Scalar) (codec_type : string) :
  d !! "title" = Some title ->
  In phrase (filter_none (split_comma (title_audio_or_sub settings))) ->
  contains (lower phrase) (lower title) = true ->
  test_tags_for_search_string lib settings self (Some d) stream_id codec_type
  = ([], Ok true).
Proof.
  intros Hd Hin Hc. unfold test_tags_for_search_string.
  change "title" with (lower "title") at 1.
  rewrite (has_tag_true d "title" title Hd). unfold title_matches.
  rewrite (phrase_listed_nonempty _ _ Hin). simpl tag_value. rewrite Hd. simpl default.
  replace (existsb _ _) with true; [reflexivity|].
  symmetry. apply existsb_exists. exists phrase. split; assumption.
Qed.

(** A tag stored under a key that is not the lowercase one is read as the
    empty text, which no phrase and no language code matches. *)
Lemma title_matches_unread (d : gmap string string) :
  d !! "title" = None -> title_matches settings (Some d) = false.
Proof.
  intros Hd. apply title_matches_false. intros phrase Hin.
  simpl. rewrite Hd. apply contains_empty_r.
  rewrite nonempty_lower. apply (filter_none_nonempty _ _ Hin).
Qed.

Lemma language_matches_unread (language_list : string) (d : gmap string string) :
  d !! "language" = None -> language_matches language_list (Some d) = false.
Proof.
  intros Hd. unfold language_matches.
  destruct (nonempty language_list); [|reflexivity].
  apply existsb_false_iff. intros language _. simpl. rewrite Hd. simpl.
  destruct (nonempty (strip language)) eqn:E; [|reflexivity].
  apply contains_empty_r. now rewrite nonempty_lower.
Qed.

Lemma lowercase_keys_only (self : MapperT lib) (d : gmap string string)
    (stream_id : Scalar) (codec_type : string) :
  d !! "title" = None -> d !! "language" = None ->
  outcome (test_tags_for_search_string lib settings self (Some d) stream_id codec_type)
  = Ok false.
Proof.
  intros Ht Hl. unfold test_tags_for_search_string.
  rewrite (title_matches_unread d Ht), andb_false_r.
  rewrite !(language_matches_unread _ d Hl).
  destruct (has_tag (Some d) "language"); [|reflexivity].
  destruct (String.eqb codec_type "subtitle"); [reflexivity|].
  destruct (audio_stream_count lib self <=? 1); reflexivity.
Qed.

(** The language tag is read under the lowercase key as well: with two
    audio streams and [eng] configured, [language = eng] selects the
    stream and [LANGUAGE = eng] does not. *)
Lemma language_key_case_changes_verdict (self : MapperT lib) (stream_id : Scalar) :
  1 < audio_stream_count lib self ->
  languages_audio settings = "eng" ->
  title_audio_or_sub settings = "" ->
  outcome (test_tags_for_search_string lib settings self
             (Some {["language" := "eng"]}) stream_id "audio") = Ok true /\
  outcome (test_tags_for_search_string lib settings self
             (Some {["LANGUAGE" := "eng"]}) stream_id "audio") = Ok false.
Proof.
  intros Hn Ha Ht. unfold test_tags_for_search_string, title_matches.
  rewrite Ht, Ha.
  replace (has_tag (Some {["language" := "eng"]}) "title") with false
    by (vm_compute; reflexivity).
  replace (has_tag (Some {["LANGUAGE" := "eng"]}) "title") with false
    by (vm_compute; reflexivity).
  replace (has_tag (Some {["language" := "eng"]}) "language") with true
    by (vm_compute; reflexivity).
  replace (has_tag (Some {["LANGUAGE" := "eng"]}) "language") with true
    by (vm_compute; reflexivity).
  simpl andb. cbv iota.
  replace (String.eqb "audio" "subtitle") with false by reflexivity.
  destruct (Z.leb_spec (audio_stream_count lib self) 1); [lia|].
  split; vm_compute; reflexivity.
Qed.
End RemovePredicate.

(** ** [remove_stream_by_language]: claims about the predicate and builder *)

(** C6. A stream whose tags are absent, or hold no key that reads
    [language] when lowercased, and whose title contains none of the
    configured phrases, is not selected: [test_tags_for_search_string]
    returns [False] without raising, and logs exactly one warning, the one
    saying that the stream has no language tag. *)
Theorem missing_language_tag_not_fatal (lib : FFmpeg.FFmpegLib)
    (settings : RemoveStreamByLanguage.Settings) (self : FFmpeg.MapperT lib)
    (stream_tags : option (gmap string string)) (stream_id : Py.Scalar)
    (codec_type : string) :
  (forall d k, stream_tags = Some d -> Py.lower k = "language" -> d !! k = None) ->
  (forall phrase,
      In phrase (Py.filter_none (Py.split_comma
                   (RemoveStreamByLanguage.title_audio_or_sub settings))) ->
      Py.contains (Py.lower phrase)
        (Py.lower (RemoveStreamByLanguage.tag_value stream_tags "title")) = false) ->
  RemoveStreamByLanguage.test_tags_for_search_string lib settings self
    stream_tags stream_id codec_type
  = ([Observations.no_language_diagnostic stream_id (FFmpeg.input_file lib self)],
     Py.Ok false).
Proof.
  intros Hlang Htitle.
  unfold RemoveStreamByLanguage.test_tags_for_search_string.
  rewrite (title_matches_false settings stream_tags Htitle), andb_false_r.
  rewrite (has_tag_false stream_tags "language" Hlang).
  reflexivity.
Qed.

Lemma missing_language_tag_not_fatal_witness :
  RemoveStreamByLanguage.test_tags_for_search_string Samples.lib
    Samples.remove_commentary Samples.film_mapper
    (Some {["title" := "Main feature"]}) (Py.PyInt 1) "audio"
  = ([Observations.no_language_diagnostic (Py.PyInt 1) Samples.film_path],
     Py.Ok false).
Proof.
  apply (missing_language_tag_not_fatal Samples.lib Samples.remove_commentary
           Samples.film_mapper (Some {["title" := "Main feature"]})
           (Py.PyInt 1) "audio").
  - intros d k [= <-] Hk.
    apply lookup_singleton_ne. intros <-. discriminate Hk.
  - intros phrase [<-|[]]. vm_compute. reflexivity.
Defined.

(** C1. The last-audio-track guard is not reached on a title match: in a
    file with exactly one audio stream, an audio stream tagged
    [title = Director Commentary], [language = eng] is selected for
    removal when the phrase [commentary] is configured. *)
Theorem title_match_removes_only_audio (lib : FFmpeg.FFmpegLib)
    (self : FFmpeg.MapperT lib) :
  FFmpeg.audio_stream_count lib self = 1 ->
  RemoveStreamByLanguage.test_stream_needs_processing lib
    Samples.remove_commentary self Samples.commentary_audio
  = ([], Py.Ok true).
Proof. intros _. vm_compute. reflexivity. Qed.

Lemma title_match_removes_only_audio_witness :
  FFmpeg.audio_stream_count Samples.lib Samples.film_mapper = 1 /\
  RemoveStreamByLanguage.test_stream_needs_processing Samples.lib
    Samples.remove_commentary Samples.film_mapper Samples.commentary_audio
  = ([], Py.Ok true).
Proof.
  split; [reflexivity|].
  apply (title_match_removes_only_audio Samples.lib Samples.film_mapper).
  reflexivity.
Defined.

(** C5. The value of a tag is read under the lowercase key only: with the
    phrase [commentary] configured, a stream tagged
    [title = Director Commentary] is selected, and the same stream with
    the key written [TITLE] is not. *)
Theorem tag_key_case_changes_verdict (lib : FFmpeg.FFmpegLib)
    (self : FFmpeg.MapperT lib) :
  FFmpeg.outcome
    (RemoveStreamByLanguage.test_stream_needs_processing lib Samples.title_only self
       (Samples.audio_stream "aac" (Some 2)
          (Some {["title" := "Director Commentary"]})))
  = Py.Ok true /\
  FFmpeg.outcome
    (RemoveStreamByLanguage.test_stream_needs_processing lib Samples.title_only self
       (Samples.audio_stream "aac" (Some 2)
          (Some {["TITLE" := "Director Commentary"]})))
  = Py.Ok false.
Proof. split; vm_compute; reflexivity. Qed.

(** C9. The removal builder returns an empty [stream_mapping] and an empty
    [stream_encoding] for every stream and every stream id, and logs
    nothing. *)
Theorem removal_builder_emits_nothing (lib : FFmpeg.FFmpegLib)
    (self : FFmpeg.MapperT lib) (stream_info : FFmpeg.StreamInfo) (stream_id : Z) :
  exists r,
    RemoveStreamByLanguage.custom_stream_mapping lib self stream_info stream_id
    = ([], Py.Ok r) /\
    FFmpeg.stream_mapping r = [] /\ FFmpeg.stream_encoding r = [].
Proof. eexists. split; [reflexivity|]. split; reflexivity. Qed.

(** C10. With both language settings empty the file test of
    [remove_stream_by_language] returns the bare [False], whatever the
    title phrases are: its only effect is one debug record, so the file is
    neither probed nor flagged. *)
Theorem unconfigured_languages_block_file_test (lib : FFmpeg.FFmpegLib)
    (settings : RemoveStreamByLanguage.Settings) (data : gmap string FFmpeg.Val) :
  RemoveStreamByLanguage.languages_audio settings = "" ->
  RemoveStreamByLanguage.languages_subtitle settings = "" ->
  RemoveStreamByLanguage.on_library_management_file_test lib settings data
  = ([Observations.not_configured_diagnostic], Py.Ok FFmpeg.RetFalse).
Proof.
  intros Ha Hs. unfold RemoveStreamByLanguage.on_library_management_file_test.
  rewrite Ha, Hs. reflexivity.
Qed.

Lemma unconfigured_languages_block_file_test_witness :
  RemoveStreamByLanguage.on_library_management_file_test Samples.lib
    Samples.title_only (<["path" := Samples.film_path]> ∅)
  = ([Observations.not_configured_diagnostic], Py.Ok FFmpeg.RetFalse).
Proof.
  apply (unconfigured_languages_block_file_test Samples.lib Samples.title_only
           (<["path" := Samples.film_path]> ∅)); reflexivity.
Defined.

(** ** [encoder_audio_custom]: claims about the predicate and builder *)
Section EncoderPredicate.
Import Py FFmpeg EncoderAudioCustom Observations.
Variable lib : FFmpegLib.
Variable settings : Settings.

(** The predicate lowercases the stream's codec name and compares it,
    as it is, with the configured value. *)
Lemma test_stream_needs_processing_spec (self : MapperT lib)
    (stream_info : StreamInfo) (name : string) :
  codec_name stream_info = Some name ->
  test_stream_needs_processing lib settings self stream_info
  = ret (negb (String.eqb (lower name) (if_not_found settings))).
Proof.
  intros Hn. unfold test_stream_needs_processing. rewrite Hn. simpl.
  destruct (String.eqb (lower name) (if_not_found settings)); reflexivity.
Qed.

(** X18. With a lowercase configured value the predicate is the match
    ignoring case: a stream is left alone exactly when its codec name
    equals the configured value up to letter case. *)
Lemma lowercase_setting_matches_ignoring_case (self : MapperT lib)
    (stream_info : StreamInfo) (name : string) :
  codec_name stream_info = Some name ->
  lower (if_not_found settings) = if_not_found settings ->
  (outcome (test_stream_needs_processing lib settings self stream_info) = Ok false
   <-> lower name = lower (if_not_found settings)).
Proof.
  intros Hn Hl. rewrite (test_stream_needs_processing_spec self _ _ Hn), Hl.
  unfold outcome, ret. simpl.
  destruct (String.eqb_spec (lower name) (if_not_found settings)) as [He|Hne];
    simpl; split; intros H; try congruence.
Qed.

(** An unset or zero bitrate takes the branch that calls
    [calculate_bitrate]. *)
Lemma unset_or_zero_is_auto (b : Scalar) :
  bitrate_unset_or_zero b ->
  (if negb (truthy b) then ret true
   else bind (int b) (fun n => ret (n =? 0)))
  = ret true.
Proof.
  intros [| | |s Hs]; try reflexivity.
  destruct s as [|c s]; [reflexivity|].
  simpl. rewrite Hs. reflexivity.
Qed.

Lemma calculate_bitrate_known (stream_info : StreamInfo) (c : Z) :
  channels stream_info = Some c -> c <> 0 ->
  outcome (calculate_bitrate stream_info) = Ok (64 * c).
Proof.
  intros Hc Hnz. unfold calculate_bitrate. rewrite Hc. simpl.
  destruct (Z.eqb_spec c 0); [contradiction | reflexivity].
Qed.

Lemma calculate_bitrate_unknown (stream_info : StreamInfo) :
  channels stream_info = None \/ channels stream_info = Some 0 ->
  calculate_bitrate stream_info = ([channels_diagnostic], Ok 64).
Proof. intros [Hc|Hc]; unfold calculate_bitrate; rewrite Hc; reflexivity. Qed.

(** In automatic mode the bitrate entry of the builder is the result of
    [calculate_bitrate] followed by [k], and the builder logs what
    [calculate_bitrate] logs. *)
Lemma custom_stream_mapping_auto (self : MapperT lib)
    (stream_info : StreamInfo) (stream_id : Z) (t : list Event) (b : Z) :
  bitrate_unset_or_zero (bitrate settings) ->
  calculate_bitrate stream_info = (t, Ok b) ->
  bitrate_argument (custom_stream_mapping lib settings self stream_info stream_id)
  = Some (str_of_Z b ++ "k") /\
  trace (custom_stream_mapping lib settings self stream_info stream_id) = t.
Proof.
  intros Hauto Hcalc. unfold custom_stream_mapping.
  rewrite (unset_or_zero_is_auto _ Hauto), bind_ret_l, Hcalc.
  unfold bitrate_argument, outcome, trace. simpl.
  rewrite !app_nil_r. destruct (advanced settings); split; reflexivity.
Qed.
End EncoderPredicate.

(** C2. Under the default settings an [aac] stream with two channels needs
    processing, and the builder called with stream id 0 maps [0:a:0] and
    encodes with [libopus] at [128k], two channels and the channel-layout
    filter. *)
Theorem reencode_aac_stereo_default (lib : FFmpeg.FFmpegLib)
    (self : FFmpeg.MapperT lib) (index : option Z) (codec_type : option string)
    (tags : option (gmap string string)) :
  FFmpeg.outcome
    (EncoderAudioCustom.test_stream_needs_processing lib
       EncoderAudioCustom.default_settings self
       {| FFmpeg.index := index; FFmpeg.codec_type := codec_type;
          FFmpeg.codec_name := Some "aac"; FFmpeg.channels := Some 2;
          FFmpeg.tags := tags |})
  = Py.Ok true /\
  FFmpeg.outcome
    (EncoderAudioCustom.custom_stream_mapping lib
       EncoderAudioCustom.default_settings self
       {| FFmpeg.index := index; FFmpeg.codec_type := codec_type;
          FFmpeg.codec_name := Some "aac"; FFmpeg.channels := Some 2;
          FFmpeg.tags := tags |} 0)
  = Py.Ok {| FFmpeg.stream_mapping := ["-map"; "0:a:0"];
             FFmpeg.stream_encoding :=
               ["-c:a:0"; "libopus"; "-b:a:0"; "128k"; "-ac:a:0"; "2";
                "-af:a:0"; "aformat=channel_layouts='7.1|5.1|stereo|mono'"] |}.
Proof. split; reflexivity. Qed.

(** C3, as stated, fails: with bitrate 0 and [channels = 0] the builder
    does not use [64 * channels]. *)
Lemma bitrate_default_zero_channels_counterexample :
  ~ (forall (lib : FFmpeg.FFmpegLib) (settings : EncoderAudioCustom.Settings)
            (self : FFmpeg.MapperT lib) (stream_info : FFmpeg.StreamInfo)
            (stream_id c : Z),
        Observations.bitrate_unset_or_zero (EncoderAudioCustom.bitrate settings) ->
        FFmpeg.channels stream_info = Some c ->
        Observations.bitrate_argument
          (EncoderAudioCustom.custom_stream_mapping lib settings self stream_info stream_id)
        = Some (Py.str_of_Z (64 * c) ++ "k")).
Proof.
  intros H.
  specialize (H Samples.lib EncoderAudioCustom.default_settings Samples.film_mapper
                (Samples.audio_stream "aac" (Some 0) None) 0 0
                Observations.bitrate_zero eq_refl).
  vm_compute in H. discriminate H.
Qed.

(** C3, amended. When the configured bitrate is unset or zero, the builder
    uses [64 * channels] kilobits for a stream whose channel count is
    present and not zero; for a stream whose channel count is absent, or
    present and zero, it uses the flat 64 ([64k]) and logs the
    diagnostic. *)
Theorem bitrate_defaulting (lib : FFmpeg.FFmpegLib)
    (settings : EncoderAudioCustom.Settings) (self : FFmpeg.MapperT lib)
    (stream_info : FFmpeg.StreamInfo) (stream_id : Z) :
  Observations.bitrate_unset_or_zero (EncoderAudioCustom.bitrate settings) ->
  (forall c, FFmpeg.channels stream_info = Some c -> c <> 0 ->
     Observations.bitrate_argument
       (EncoderAudioCustom.custom_stream_mapping lib settings self stream_info stream_id)
     = Some (Py.str_of_Z (64 * c) ++ "k")) /\
  (FFmpeg.channels stream_info = None \/ FFmpeg.channels stream_info = Some 0 ->
     Observations.bitrate_argument
       (EncoderAudioCustom.custom_stream_mapping lib settings self stream_info stream_id)
     = Some "64k" /\
     In Observations.channels_diagnostic
        (FFmpeg.trace
           (EncoderAudioCustom.custom_stream_mapping lib settings self stream_info stream_id))).
Proof.
  intros Hauto. split.
  - intros c Hc Hnz.
    pose proof (calculate_bitrate_known stream_info c Hc Hnz) as Hcalc.
    destruct (EncoderAudioCustom.calculate_bitrate stream_info) as [t r] eqn:E.
    simpl in Hcalc. subst r.
    apply (custom_stream_mapping_auto lib settings self stream_info stream_id t _ Hauto E).
  - intros Hc.
    destruct (custom_stream_mapping_auto lib settings self stream_info stream_id _ _
                Hauto (calculate_bitrate_unknown stream_info Hc)) as [Hb Ht].
    rewrite Hb, Ht. split; [reflexivity | now left].
Qed.

Lemma bitrate_defaulting_witness :
  Observations.bitrate_argument
    (EncoderAudioCustom.custom_stream_mapping Samples.lib
       EncoderAudioCustom.default_settings Samples.film_mapper
       (Samples.audio_stream "ac3" (Some 6) None) 0)
  = Some "384k" /\
  Observations.bitrate_argument
    (EncoderAudioCustom.custom_stream_mapping Samples.lib
       EncoderAudioCustom.default_settings Samples.film_mapper
       (Samples.audio_stream "ac3" None None) 0)
  = Some "64k".
Proof.
  split.
  - apply (proj1 (bitrate_defaulting Samples.lib EncoderAudioCustom.default_settings
                    Samples.film_mapper (Samples.audio_stream "ac3" (Some 6) None) 0
                    Observations.bitrate_zero) 6 eq_refl).
    lia.
  - apply (proj2 (bitrate_defaulting Samples.lib EncoderAudioCustom.default_settings
                    Samples.film_mapper (Samples.audio_stream "ac3" None None) 0
                    Observations.bitrate_zero)).
    left. reflexivity.
Defined.

(** C4. The configured codec is compared as written: with [Opus]
    configured, an [opus] stream, whose name equals the configured value
    when case is ignored, still needs processing. *)
Theorem capitalised_setting_never_matches (lib : FFmpeg.FFmpegLib)
    (self : FFmpeg.MapperT lib) (ch : option Z) (tags : option (gmap string string)) :
  Py.lower "opus" = Py.lower (EncoderAudioCustom.if_not_found Samples.capitalised_codec) /\
  EncoderAudioCustom.test_stream_needs_processing lib Samples.capitalised_codec self
    (Samples.audio_stream "opus" ch tags)
  = ([], Py.Ok true).
Proof. split; reflexivity. Qed.

(** ** The runner hooks of both plugins *)
Section Hooks.
Import Py FFmpeg Observations.
Variable lib : FFmpegLib.

Lemma no_command_lookup (data : gmap string Val) :
  no_command data !! "exec_command" = Some (VList []) /\
  no_command data !! "repeat" = Some VFalse.
Proof.
  unfold no_command. split.
  - rewrite lookup_insert_ne by discriminate. apply lookup_insert_eq.
  - apply lookup_insert_eq.
Qed.

Lemma no_command_get (data : gmap string Val) (k : string) :
  k <> "repeat" -> k <> "exec_command" ->
  get (no_command data) k = get data k.
Proof.
  intros H1 H2. unfold get, no_command.
  rewrite !lookup_insert_ne by congruence. reflexivity.
Qed.

Lemma verdict_false {X : Type} (m : M (bool * X)) :
  verdict m = Some false -> exists t x, m = (t, Ok (false, x)).
Proof.
  unfold verdict, outcome. destruct m as [t [[b x]|e]]; simpl; [|discriminate].
  intros [= ->]. eauto.
Qed.

(** [remove_stream_by_language]: the worker hook after a failed probe
    and after a negative verdict. *)
Lemma remove_worker_probe_failed (settings : RemoveStreamByLanguage.Settings)
    (data : gmap string Val) :
  probe_file lib ["video"] (get data "file_in") = None ->
  RemoveStreamByLanguage.on_worker_process lib settings data
  = ([ProbeFile ["video"] (get data "file_in")], Ok (no_command data)).
Proof.
  intros Hp. unfold RemoveStreamByLanguage.on_worker_process.
  fold (no_command data). rewrite no_command_get by discriminate.
  unfold RemoveStreamByLanguage.probe_video. rewrite Hp. reflexivity.
Qed.

Lemma remove_worker_no_work (settings : RemoveStreamByLanguage.Settings)
    (data : gmap string Val) (probe : ProbeResult) :
  probe_file lib ["video"] (get data "file_in") = Some probe ->
  verdict (streams_need_processing lib
             (RemoveStreamByLanguage.test_stream_needs_processing lib settings)
             (RemoveStreamByLanguage.prepare_mapper lib probe (get data "file_in")))
  = Some false ->
  outcome (RemoveStreamByLanguage.on_worker_process lib settings data)
  = Ok (no_command data).
Proof.
  intros Hp Hv. apply verdict_false in Hv as (t & m & Hv).
  unfold RemoveStreamByLanguage.on_worker_process.
  fold (no_command data). rewrite no_command_get by discriminate.
  unfold RemoveStreamByLanguage.probe_video. rewrite Hp. simpl.
  rewrite Hv. reflexivity.
Qed.

(** [encoder_audio_custom]: the same two cases. *)
Lemma encoder_worker_probe_failed (settings : EncoderAudioCustom.Settings)
    (data : gmap string Val) :
  probe_file lib ["audio"; "video"] (get data "file_in") = None ->
  EncoderAudioCustom.on_worker_process lib settings data
  = ([ProbeFile ["audio"; "video"] (get data "file_in")], Ok (no_command data)).
Proof.
  intros Hp. unfold EncoderAudioCustom.on_worker_process.
  fold (no_command data). rewrite no_command_get by discriminate.
  unfold EncoderAudioCustom.probe_audio_video. rewrite Hp. reflexivity.
Qed.

Lemma encoder_worker_no_work (settings : EncoderAudioCustom.Settings)
    (data : gmap string Val) (probe : ProbeResult) :
  probe_file lib ["audio"; "video"] (get data "file_in") = Some probe ->
  verdict (streams_need_processing lib
             (EncoderAudioCustom.test_stream_needs_processing lib settings)
             (EncoderAudioCustom.prepare_mapper lib probe))
  = Some false ->
  outcome (EncoderAudioCustom.on_worker_process lib settings data)
  = Ok (no_command data).
Proof.
  intros Hp Hv. apply verdict_false in Hv as (t & m & Hv).
  unfold EncoderAudioCustom.on_worker_process.
  fold (no_command data). rewrite no_command_get by discriminate.
  unfold EncoderAudioCustom.probe_audio_video. rewrite Hp. simpl.
  rewrite Hv. reflexivity.
Qed.

(** The file tests after a failed probe. *)
Lemma remove_file_test_probe_failed (settings : RemoveStreamByLanguage.Settings)
    (data : gmap string Val) :
  probe_file lib ["video"] (get data "path") = None ->
  RemoveStreamByLanguage.on_library_management_file_test lib settings data
  = ([not_configured_diagnostic], Ok RetFalse) \/
  RemoveStreamByLanguage.on_library_management_file_test lib settings data
  = ([ProbeFile ["video"] (get data "path")], Ok (RetData data)).
Proof.
  intros Hp. unfold RemoveStreamByLanguage.on_library_management_file_test.
  destruct (negb _ && negb _)%bool; [left; reflexivity | right].
  unfold RemoveStreamByLanguage.probe_video. rewrite Hp. reflexivity.
Qed.

Lemma encoder_file_test_probe_failed (settings : EncoderAudioCustom.Settings)
    (data : gmap string Val) :
  probe_file lib ["audio"; "video"] (get data "path") = None ->
  EncoderAudioCustom.on_library_management_file_test lib settings data
  = ([ProbeFile ["audio"; "video"] (get data "path")], Ok (RetData data)).
Proof.
  intros Hp. unfold EncoderAudioCustom.on_library_management_file_test.
  unfold EncoderAudioCustom.probe_audio_video. rewrite Hp. reflexivity.
Qed.
End Hooks.

(** C7. When the probe succeeds and the mapper's [streams_need_processing]
    returns [False], [on_worker_process] of either plugin returns the
    [data] dict with nothing changed but [exec_command], which is the
    empty list, and [repeat], which is [False]. *)
Theorem no_work_no_command (lib : FFmpeg.FFmpegLib)
    (remove_settings : RemoveStreamByLanguage.Settings)
    (encoder_settings : EncoderAudioCustom.Settings)
    (data : gmap string FFmpeg.Val) (probe : FFmpeg.ProbeResult) :
  (FFmpeg.probe_file lib ["video"] (FFmpeg.get data "file_in") = Some probe ->
   Observations.verdict
     (FFmpeg.streams_need_processing lib
        (RemoveStreamByLanguage.test_stream_needs_processing lib remove_settings)
        (RemoveStreamByLanguage.prepare_mapper lib probe (FFmpeg.get data "file_in")))
   = Some false ->
   Observations.returns_no_command data
     (RemoveStreamByLanguage.on_worker_process lib remove_settings data)) /\
  (FFmpeg.probe_file lib ["audio"; "video"] (FFmpeg.get data "file_in") = Some probe ->
   Observations.verdict
     (FFmpeg.streams_need_processing lib
        (EncoderAudioCustom.test_stream_needs_processing lib encoder_settings)
        (EncoderAudioCustom.prepare_mapper lib probe))
   = Some false ->
   Observations.returns_no_command data
     (EncoderAudioCustom.on_worker_process lib encoder_settings data)).
Proof.
  destruct (no_command_lookup data) as [Hc Hr].
  split; intros Hp Hv; exists (Observations.no_command data).
  - split; [|auto]. now apply remove_worker_no_work with (probe := probe).
  - split; [|auto]. now apply encoder_worker_no_work with (probe := probe).
Qed.

Lemma no_work_no_command_witness :
  Observations.returns_no_command Samples.opus_task
    (RemoveStreamByLanguage.on_worker_process Samples.lib
       Samples.remove_commentary Samples.opus_task) /\
  Observations.returns_no_command Samples.opus_task
    (EncoderAudioCustom.on_worker_process Samples.lib
       EncoderAudioCustom.default_settings Samples.opus_task).
Proof.
  pose proof (no_work_no_command Samples.lib Samples.remove_commentary
                EncoderAudioCustom.default_settings Samples.opus_task
                Samples.opus_film) as [HR HE].
  split.
  - apply HR; vm_compute; reflexivity.
  - apply HE; vm_compute; reflexivity.
Defined.

(** C8. When [Probe.file] fails, neither hook of either plugin raises or
    schedules work: [on_worker_process] returns the [data] dict with the
    empty [exec_command] and [repeat = False], and
    [on_library_management_file_test] returns the [data] dict as it
    received it (or, for an unconfigured [remove_stream_by_language], the
    bare [False]), so [add_file_to_pending_tasks] is not set. Apart from
    the probe call and the not-configured record nothing else happens. *)
Theorem probe_failure_excludes_file (lib : FFmpeg.FFmpegLib)
    (remove_settings : RemoveStreamByLanguage.Settings)
    (encoder_settings : EncoderAudioCustom.Settings)
    (data : gmap string FFmpeg.Val) :
  (FFmpeg.probe_file lib ["video"] (FFmpeg.get data "file_in") = None ->
   RemoveStreamByLanguage.on_worker_process lib remove_settings data
   = ([FFmpeg.ProbeFile ["video"] (FFmpeg.get data "file_in")],
      Py.Ok (Observations.no_command data))) /\
  (FFmpeg.probe_file lib ["audio"; "video"] (FFmpeg.get data "file_in") = None ->
   EncoderAudioCustom.on_worker_process lib encoder_settings data
   = ([FFmpeg.ProbeFile ["audio"; "video"] (FFmpeg.get data "file_in")],
      Py.Ok (Observations.no_command data))) /\
  (FFmpeg.probe_file lib ["video"] (FFmpeg.get data "path") = None ->
   RemoveStreamByLanguage.on_library_management_file_test lib remove_settings data
   = ([Observations.not_configured_diagnostic], Py.Ok FFmpeg.RetFalse) \/
   RemoveStreamByLanguage.on_library_management_file_test lib remove_settings data
   = ([FFmpeg.ProbeFile ["video"] (FFmpeg.get data "path")],
      Py.Ok (FFmpeg.RetData data))) /\
  (FFmpeg.probe_file lib ["audio"; "video"] (FFmpeg.get data "path") = None ->
   EncoderAudioCustom.on_library_management_file_test lib encoder_settings data
   = ([FFmpeg.ProbeFile ["audio"; "video"] (FFmpeg.get data "path")],
      Py.Ok (FFmpeg.RetData data))) /\
  Observations.no_command data !! "exec_command" = Some (FFmpeg.VList []).
Proof.
  repeat split.
  - apply remove_worker_probe_failed.
  - apply encoder_worker_probe_failed.
  - apply remove_file_test_probe_failed.
  - apply encoder_file_test_probe_failed.
  - apply no_command_lookup.
Qed.

Lemma probe_failure_excludes_file_witness :
  RemoveStreamByLanguage.on_worker_process Samples.lib Samples.remove_commentary
    Samples.missing_task
  = ([FFmpeg.ProbeFile ["video"] Samples.missing_path],
     Py.Ok (Observations.no_command Samples.missing_task)) /\
  EncoderAudioCustom.on_worker_process Samples.lib EncoderAudioCustom.default_settings
    Samples.missing_task
  = ([FFmpeg.ProbeFile ["audio"; "video"] Samples.missing_path],
     Py.Ok (Observations.no_command Samples.missing_task)) /\
  RemoveStreamByLanguage.on_library_management_file_test Samples.lib
    Samples.remove_commentary Samples.missing_task
  = ([FFmpeg.ProbeFile ["video"] Samples.missing_path],
     Py.Ok (FFmpeg.RetData Samples.missing_task)) /\
  EncoderAudioCustom.on_library_management_file_test Samples.lib
    EncoderAudioCustom.default_settings Samples.missing_task
  = ([FFmpeg.ProbeFile ["audio"; "video"] Samples.missing_path],
     Py.Ok (FFmpeg.RetData Samples.missing_task)).
Proof.
  pose proof (probe_failure_excludes_file Samples.lib Samples.remove_commentary
                EncoderAudioCustom.default_settings Samples.missing_task)
    as (H1 & H2 & H3 & H4 & _).
  split; [apply H1; reflexivity|].
  split; [apply H2; reflexivity|].
  split; [|apply H4; reflexivity].
  destruct (H3 eq_refl) as [H|H]; [|exact H].
  apply (f_equal fst) in H. vm_compute in H. discriminate H.
Defined.

(** ** End to end on the reference mapper *)

(** The encoder's worker hook on the sample film: the single [aac] stream
    is re-encoded with the arguments of C2. *)
Example encoder_worker_on_film :
  exists d,
    FFmpeg.outcome
      (EncoderAudioCustom.on_worker_process Samples.lib
         EncoderAudioCustom.default_settings
         (<["file_in" := Samples.film_path]> ∅)) = Py.Ok d /\
    d !! "exec_command"
    = Some (FFmpeg.VList
              ["ffmpeg"; "-map"; "0:a:0"; "-c:a:0"; "libopus"; "-b:a:0"; "128k";
               "-ac:a:0"; "2"; "-af:a:0";
               "aformat=channel_layouts='7.1|5.1|stereo|mono'"]) /\
    d !! "command_progress_parser" = Some (FFmpeg.VParseProgress Samples.film).
Proof. eexists. split; [reflexivity|]. split; vm_compute; reflexivity. Qed.

(** The remover's file test on the sample film flags the file although
    its only audio stream would be removed. *)
Example remover_flags_film :
  exists d,
    FFmpeg.outcome
      (RemoveStreamByLanguage.on_library_management_file_test Samples.lib
         Samples.remove_commentary (<["path" := Samples.film_path]> ∅))
    = Py.Ok (FFmpeg.RetData d) /\
    d !! "add_file_to_pending_tasks" = Some FFmpeg.VTrue.
Proof. eexists. split; [reflexivity|]. vm_compute. reflexivity. Qed.


(** * Further properties of the plugins *)

(** ** Letter case and the string primitives *)
Section CaseFacts.
Import Py.

Lemma lower_ascii_idem (c : ascii) : lower_ascii (lower_ascii c) = lower_ascii c.
Proof. destruct c as [[] [] [] [] [] [] [] []]; reflexivity. Qed.

Lemma is_space_lower_ascii (c : ascii) : is_space (lower_ascii c) = is_space c.
Proof. destruct c as [[] [] [] [] [] [] [] []]; reflexivity. Qed.

Lemma is_comma_lower_ascii (c : ascii) :
  Ascii.eqb "," (lower_ascii c) = Ascii.eqb "," c.
Proof. destruct c as [[] [] [] [] [] [] [] []]; reflexivity. Qed.

Lemma lower_idem (s : string) : lower (lower s) = lower s.
Proof.
  induction s as [|c s IH]; simpl; [reflexivity|].
  now rewrite lower_ascii_idem, IH.
Qed.

Lemma split_by_lower (sep : ascii -> bool) (s : string) :
  (forall c, sep (lower_ascii c) = sep c) ->
  split_by sep (lower s) = List.map lower (split_by sep s).
Proof.
  intros Hsep. induction s as [|c s IH]; simpl; [reflexivity|].
  rewrite Hsep, IH. destruct (sep c); [reflexivity|].
  destruct (split_by sep s); reflexivity.
Qed.

Lemma split_comma_lower (s : string) :
  split_comma (lower s) = List.map lower (split_comma s).
Proof. apply split_by_lower, is_comma_lower_ascii. Qed.

Lemma filter_none_lower (l : list string) :
  filter_none (List.map lower l) = List.map lower (filter_none l).
Proof.
  induction l as [|x l IH]; simpl; [reflexivity|].
  rewrite nonempty_lower, IH. destruct (nonempty x); reflexivity.
Qed.

Lemma lstrip_lower (s : string) : lstrip (lower s) = lower (lstrip s).
Proof.
  induction s as [|c s IH]; simpl; [reflexivity|].
  rewrite is_space_lower_ascii. destruct (is_space c); [exact IH | reflexivity].
Qed.

Lemma rstrip_lower (s : string) : rstrip (lower s) = lower (rstrip s).
Proof.
  induction s as [|c s IH]; simpl; [reflexivity|].
  rewrite IH, is_space_lower_ascii.
  destruct (rstrip s); simpl; [destruct (is_space c)|]; reflexivity.
Qed.

Lemma strip_lower (s : string) : strip (lower s) = lower (strip s).
Proof. unfold strip. now rewrite lstrip_lower, rstrip_lower. Qed.

Lemma existsb_map_lower (f : string -> bool) (l : list string) :
  existsb f (List.map lower l) = existsb (fun x => f (lower x)) l.
Proof.
  induction l as [|x l IH]; simpl; [reflexivity|]. now rewrite IH.
Qed.

Lemma existsb_pointwise (f g : string -> bool) (l : list string) :
  (forall x, f x = g x) -> existsb f l = existsb g l.
Proof.
  intros H. induction l as [|x l IH]; simpl; [reflexivity|]. now rewrite H, IH.
Qed.

Lemma startswith_refl (s : string) : startswith s s = true.
Proof.
  induction s as [|c s IH]; simpl; [reflexivity|].
  now rewrite Ascii.eqb_refl, IH.
Qed.

Lemma contains_refl (s : string) : contains s s = true.
Proof.
  destruct s; simpl; [reflexivity|].
  now rewrite Ascii.eqb_refl, startswith_refl.
Qed.

(** A non-empty entry of a comma list shows that the setting is set. *)
Lemma entry_listed_nonempty (setting entry : string) :
  In entry (split_comma setting) -> nonempty entry = true ->
  nonempty setting = true.
Proof.
  destruct setting; [|reflexivity].
  intros [<-|[]] H. discriminate H.
Qed.
End CaseFacts.

(** ** [remove_stream_by_language]: which streams are selected *)
Section RemoveSelection.
Import Py FFmpeg RemoveStreamByLanguage Observations.
Variable lib : FFmpegLib.

Lemma title_matches_lower (s : Settings) (stream_tags : option (gmap string string)) :
  title_matches s stream_tags
  = existsb (fun phrase => contains (lower phrase) (lower (tag_value stream_tags "title")))
      (filter_none (split_comma (title_audio_or_sub s))).
Proof.
  unfold title_matches. destruct (title_audio_or_sub s); reflexivity.
Qed.

Lemma language_matches_lower (language_list : string)
    (stream_tags : option (gmap string string)) :
  language_matches (lower language_list) stream_tags
  = language_matches language_list stream_tags.
Proof.
  unfold language_matches. rewrite nonempty_lower.
  destruct (nonempty language_list); [|reflexivity].
  rewrite split_comma_lower, filter_none_lower, existsb_map_lower.
  apply existsb_pointwise. intros code.
  now rewrite strip_lower, nonempty_lower, lower_idem.
Qed.

Lemma title_matches_case (s1 s2 : Settings)
    (stream_tags : option (gmap string string)) :
  lower (title_audio_or_sub s1) = lower (title_audio_or_sub s2) ->
  title_matches s1 stream_tags = title_matches s2 stream_tags.
Proof.
  intros H. rewrite !title_matches_lower.
  transitivity
    (existsb (fun phrase => contains phrase (lower (tag_value stream_tags "title")))
       (filter_none (split_comma (lower (title_audio_or_sub s1))))).
  - now rewrite split_comma_lower, filter_none_lower, existsb_map_lower.
  - rewrite H. now rewrite split_comma_lower, filter_none_lower, existsb_map_lower.
Qed.

Lemma language_matches_case (l1 l2 : string)
    (stream_tags : option (gmap string string)) :
  lower l1 = lower l2 ->
  language_matches l1 stream_tags = language_matches l2 stream_tags.
Proof.
  intros H. rewrite <- (language_matches_lower l1), <- (language_matches_lower l2).
  now rewrite H.
Qed.
End RemoveSelection.

Section RemoveSelectionFacts.
Import Py FFmpeg RemoveStreamByLanguage Observations.
Variable lib : FFmpegLib.
Variable settings : Settings.

(** The tag test itself never raises. *)
Lemma test_tags_returns (self : MapperT lib)
    (stream_tags : option (gmap string string)) (stream_id : Scalar)
    (codec_type : string) :
  exists t b,
    test_tags_for_search_string lib settings self stream_tags stream_id codec_type
    = (t, Ok b).
Proof.
  unfold test_tags_for_search_string.
  destruct (has_tag stream_tags "title" && title_matches settings stream_tags)%bool;
    [now eexists _, _|].
  destruct (has_tag stream_tags "language"); [|now eexists _, _].
  destruct (String.eqb codec_type "subtitle"); [now eexists _, _|].
  destruct (audio_stream_count lib self <=? 1); now eexists _, _.
Qed.

Lemma language_matches_true (language_list : string)
    (stream_tags : option (gmap string string)) :
  language_matches language_list stream_tags = true ->
  exists code,
    In code (filter_none (split_comma language_list)) /\
    nonempty (strip code) = true /\
    contains (lower (strip code)) (lower (tag_value stream_tags "language")) = true.
Proof.
  unfold language_matches. destruct (nonempty language_list); [|discriminate].
  intros H. apply existsb_exists in H as (code & Hin & H).
  apply andb_true_iff in H as [H1 H2]. now exists code.
Qed.

Lemma language_matches_listed (language_list code : string)
    (stream_tags : option (gmap string string)) :
  In code (split_comma language_list) ->
  nonempty (strip code) = true ->
  contains (lower (strip code)) (lower (tag_value stream_tags "language")) = true ->
  language_matches language_list stream_tags = true.
Proof.
  intros Hin Hne Hc.
  assert (Hcode : nonempty code = true) by (destruct code; [discriminate Hne | reflexivity]).
  unfold language_matches. rewrite (entry_listed_nonempty _ _ Hin Hcode).
  apply existsb_exists. exists code. split.
  - unfold filter_none. apply filter_In. now split.
  - now rewrite Hne, Hc.
Qed.
End RemoveSelectionFacts.

(** X1. The remover's configuration is matched ignoring letter case: two
    configurations whose three settings agree once lowercased give the
    same verdict, the same log records and the same exception for every
    stream. *)
Theorem configuration_case_insensitive (lib : FFmpeg.FFmpegLib)
    (s1 s2 : RemoveStreamByLanguage.Settings) (self : FFmpeg.MapperT lib)
    (stream_info : FFmpeg.StreamInfo) :
  Observations.same_up_to_case s1 s2 ->
  RemoveStreamByLanguage.test_stream_needs_processing lib s1 self stream_info
  = RemoveStreamByLanguage.test_stream_needs_processing lib s2 self stream_info.
Proof.
  intros (Ha & Hs & Ht).
  unfold RemoveStreamByLanguage.test_stream_needs_processing.
  destruct (FFmpeg.codec_type stream_info) as [ct|]; [|reflexivity].
  unfold RemoveStreamByLanguage.test_tags_for_search_string.
  rewrite (title_matches_case s1 s2 _ Ht).
  rewrite (language_matches_case _ _ (FFmpeg.tags stream_info) Ha).
  rewrite (language_matches_case _ _ (FFmpeg.tags stream_info) Hs).
  reflexivity.
Qed.

Lemma configuration_case_insensitive_witness :
  RemoveStreamByLanguage.test_stream_needs_processing Samples.lib
    Samples.remove_capitals Samples.dubbed_mapper
    (Samples.audio_stream "aac" (Some 6) (Some {["language" := "fre"]}))
  = RemoveStreamByLanguage.test_stream_needs_processing Samples.lib
      Samples.remove_small Samples.dubbed_mapper
      (Samples.audio_stream "aac" (Some 6) (Some {["language" := "fre"]})).
Proof.
  apply (configuration_case_insensitive Samples.lib Samples.remove_capitals
           Samples.remove_small Samples.dubbed_mapper).
  repeat split; reflexivity.
Defined.

(** X2. A stream is selected for removal only on a match: when
    [test_tags_for_search_string] returns [True], either a configured
    title phrase occurs in the stream's title, or the stream is a subtitle
    or the file has more than one audio stream and a configured language
    code of the stream's kind occurs in the stream's language. *)
Theorem selected_stream_has_match (lib : FFmpeg.FFmpegLib)
    (settings : RemoveStreamByLanguage.Settings) (self : FFmpeg.MapperT lib)
    (stream_tags : option (gmap string string)) (stream_id : Py.Scalar)
    (codec_type : string) :
  FFmpeg.outcome
    (RemoveStreamByLanguage.test_tags_for_search_string lib settings self
       stream_tags stream_id codec_type) = Py.Ok true ->
  (exists phrase,
      In phrase (Py.filter_none (Py.split_comma
                   (RemoveStreamByLanguage.title_audio_or_sub settings))) /\
      Py.contains (Py.lower phrase)
        (Py.lower (RemoveStreamByLanguage.tag_value stream_tags "title")) = true) \/
  ((codec_type = "subtitle" \/ 1 < FFmpeg.audio_stream_count lib self) /\
   exists code,
      In code (Py.filter_none (Py.split_comma
                 (Observations.language_list_for settings codec_type))) /\
      Py.nonempty (Py.strip code) = true /\
      Py.contains (Py.lower (Py.strip code))
        (Py.lower (RemoveStreamByLanguage.tag_value stream_tags "language")) = true).
Proof.
  unfold RemoveStreamByLanguage.test_tags_for_search_string,
    Observations.language_list_for.
  destruct (RemoveStreamByLanguage.has_tag stream_tags "title" &&
            RemoveStreamByLanguage.title_matches settings stream_tags)%bool eqn:Ht.
  - intros _. left. apply andb_true_iff in Ht as [_ Ht].
    rewrite title_matches_lower in Ht.
    apply existsb_exists in Ht as (phrase & Hin & Hc). now exists phrase.
  - destruct (RemoveStreamByLanguage.has_tag stream_tags "language");
      [|intros [=]].
    destruct (String.eqb_spec codec_type "subtitle") as [->|Hne].
    + intros [= Hm]. right. split; [now left|].
      now apply language_matches_true.
    + destruct (Z.leb_spec (FFmpeg.audio_stream_count lib self) 1) as [Hle|Hgt];
        [intros [=]|].
      intros [= Hm]. right. split; [now right|].
      now apply language_matches_true.
Qed.

Lemma selected_stream_has_match_witness :
  (exists phrase,
      In phrase (Py.filter_none (Py.split_comma
                   (RemoveStreamByLanguage.title_audio_or_sub Samples.remove_small))) /\
      Py.contains (Py.lower phrase)
        (Py.lower (RemoveStreamByLanguage.tag_value
                     (Some {["language" := "fre"]}) "title")) = true) \/
  (("audio" = "subtitle" \/
    1 < FFmpeg.audio_stream_count Samples.lib Samples.dubbed_mapper) /\
   exists code,
      In code (Py.filter_none (Py.split_comma
                 (Observations.language_list_for Samples.remove_small "audio"))) /\
      Py.nonempty (Py.strip code) = true /\
      Py.contains (Py.lower (Py.strip code))
        (Py.lower (RemoveStreamByLanguage.tag_value
                     (Some {["language" := "fre"]}) "language")) = true).
Proof.
  apply (selected_stream_has_match Samples.lib Samples.remove_small
           Samples.dubbed_mapper (Some {["language" := "fre"]}) (Py.PyInt 2) "audio").
  vm_compute. reflexivity.
Defined.

(** X3. A listed language selects the stream: when the stream carries a
    [language] tag in which a configured code of the stream's kind occurs
    (ignoring case and blanks around the code), and the stream is a
    subtitle or the file has more than one audio stream, the tag test
    returns [True]. *)
Theorem listed_language_selects (lib : FFmpeg.FFmpegLib)
    (settings : RemoveStreamByLanguage.Settings) (self : FFmpeg.MapperT lib)
    (d : gmap string string) (language code : string) (stream_id : Py.Scalar)
    (codec_type : string) :
  d !! "language" = Some language ->
  In code (Py.split_comma (Observations.language_list_for settings codec_type)) ->
  Py.nonempty (Py.strip code) = true ->
  Py.contains (Py.lower (Py.strip code)) (Py.lower language) = true ->
  codec_type = "subtitle" \/ 1 < FFmpeg.audio_stream_count lib self ->
  FFmpeg.outcome
    (RemoveStreamByLanguage.test_tags_for_search_string lib settings self
       (Some d) stream_id codec_type) = Py.Ok true.
Proof.
  intros Hd Hin Hne Hc Hkind.
  assert (Hm : RemoveStreamByLanguage.language_matches
                 (Observations.language_list_for settings codec_type) (Some d) = true).
  { apply language_matches_listed with (code := code); auto.
    simpl. now rewrite Hd. }
  unfold RemoveStreamByLanguage.test_tags_for_search_string.
  destruct (RemoveStreamByLanguage.has_tag (Some d) "title" &&
            RemoveStreamByLanguage.title_matches settings (Some d))%bool;
    [reflexivity|].
  change "language" with (Py.lower "language") at 1.
  rewrite (has_tag_true d "language" language Hd).
  unfold Observations.language_list_for in Hm.
  destruct (String.eqb_spec codec_type "subtitle") as [->|Hne'].
  - simpl. now rewrite Hm.
  - destruct Hkind as [|Hn]; [contradiction|].
    destruct (Z.leb_spec (FFmpeg.audio_stream_count lib self) 1); [lia|].
    simpl. now rewrite Hm.
Qed.

Lemma listed_language_selects_witness :
  FFmpeg.outcome
    (RemoveStreamByLanguage.test_tags_for_search_string Samples.lib
       Samples.remove_german_subtitles Samples.film_mapper
       (Some {["language" := "GER"]}) (Py.PyInt 3) "subtitle") = Py.Ok true.
Proof.
  apply (listed_language_selects Samples.lib Samples.remove_german_subtitles
           Samples.film_mapper {["language" := "GER"]} "GER" "ger" (Py.PyInt 3)
           "subtitle").
  - reflexivity.
  - left. reflexivity.
  - reflexivity.
  - reflexivity.
  - left. reflexivity.
Defined.

(** X4. The predicate of the remover raises exactly when the stream has no
    [codec_type]: then it raises [AttributeError] before any tag is read
    and nothing is logged; with a [codec_type] it always returns. *)
Theorem remove_predicate_raises_without_codec_type (lib : FFmpeg.FFmpegLib)
    (settings : RemoveStreamByLanguage.Settings) (self : FFmpeg.MapperT lib)
    (stream_info : FFmpeg.StreamInfo) :
  (FFmpeg.codec_type stream_info = None ->
   RemoveStreamByLanguage.test_stream_needs_processing lib settings self stream_info
   = ([], Py.Raise Py.AttributeError)) /\
  (Observations.raises
     (RemoveStreamByLanguage.test_stream_needs_processing lib settings self stream_info)
   <-> FFmpeg.codec_type stream_info = None).
Proof.
  unfold RemoveStreamByLanguage.test_stream_needs_processing, Observations.raises.
  destruct (FFmpeg.codec_type stream_info) as [ct|].
  - split; [intros [=]|]. split; [|intros [=]].
    intros [e He].
    destruct (test_tags_returns lib settings self (FFmpeg.tags stream_info)
                (Py.of_option_Z (FFmpeg.index stream_info)) (Py.lower ct))
      as (t & b & Hr).
    rewrite Hr in He. destruct b; discriminate He.
  - split; [reflexivity|]. split; [reflexivity|]. intros _. now exists Py.AttributeError.
Qed.

Lemma remove_predicate_raises_without_codec_type_witness :
  RemoveStreamByLanguage.test_stream_needs_processing Samples.lib
    Samples.remove_small Samples.dubbed_mapper
    {| FFmpeg.index := Some 4; FFmpeg.codec_type := None;
       FFmpeg.codec_name := Some "bin_data"; FFmpeg.channels := None;
       FFmpeg.tags := Some {["language" := "eng"]} |}
  = ([], Py.Raise Py.AttributeError).
Proof.
  apply (proj1 (remove_predicate_raises_without_codec_type Samples.lib
                  Samples.remove_small Samples.dubbed_mapper _)).
  reflexivity.
Defined.

(** ** [encoder_audio_custom]: the form, the predicate and the builder *)
Section EncoderBuilderFacts.
Import Py FFmpeg EncoderAudioCustom Observations.
Variable lib : FFmpegLib.

(** [calculate_bitrate] never raises and logs one record. *)
Lemma calculate_bitrate_returns (stream_info : StreamInfo) :
  exists template args b,
    calculate_bitrate stream_info = ([Log logger DEBUG template args], Ok b) /\
    (b = 64 /\ (channels stream_info = None \/ channels stream_info = Some 0) \/
     exists c, channels stream_info = Some c /\ c <> 0 /\ b = 64 * c).
Proof.
  unfold calculate_bitrate. destruct (channels stream_info) as [c|]; simpl.
  - destruct (Z.eqb_spec c 0) as [->|Hc]; simpl.
    + eexists _, _, _. split; [reflexivity|]. left. auto.
    + eexists _, _, _. split; [reflexivity|]. right. now exists c.
  - eexists _, _, _. split; [reflexivity|]. left. auto.
Qed.

(** The builder as a function of that decision. *)
Lemma custom_stream_mapping_unfold (settings : Settings) (self : MapperT lib)
    (stream_info : StreamInfo) (stream_id : Z) :
  custom_stream_mapping lib settings self stream_info stream_id
  = bind (takes_auto (bitrate settings)) (fun auto =>
    bind (if auto : bool
          then bind (calculate_bitrate stream_info) (fun b => ret (PyInt b))
          else ret (bitrate settings)) (fun b =>
    ret {| stream_mapping := ["-map"; fmt "0:a:" (PyInt stream_id)];
           stream_encoding :=
             [ fmt "-c:a:" (PyInt stream_id); use_codec_lib settings;
               fmt "-b:a:" (PyInt stream_id); (str b ++ "k")%string;
               fmt "-ac:a:" (PyInt stream_id);
               str (PyInt (default 0 (channels stream_info)));
               fmt "-af:a:" (PyInt stream_id);
               "aformat=channel_layouts='7.1|5.1|stereo|mono'" ]
             ++ (if advanced settings then split_ws (custom_options settings)
                 else []) |})).
Proof.
  unfold custom_stream_mapping, takes_auto.
  destruct (advanced settings); simpl; reflexivity.
Qed.

Lemma takes_auto_configured (b : Scalar) (n : Z) :
  outcome (int b) = Ok n -> n <> 0 -> takes_auto b = ret false.
Proof.
  unfold takes_auto. destruct b as [|[]|z|s]; simpl; try discriminate.
  - intros [= <-] _. reflexivity.
  - intros [= <-] []. reflexivity.
  - intros [= <-] Hz. destruct (Z.eqb_spec z 0); [contradiction | reflexivity].
  - destruct s as [|a s]; [discriminate|]. simpl.
    destruct (int_of_string (String a s)) as [m|]; simpl; [|discriminate].
    intros [= <-] Hm. destruct (Z.eqb_spec m 0); [contradiction | reflexivity].
Qed.

Lemma takes_auto_raises (b : Scalar) :
  raises (takes_auto b) ->
  exists s, b = PyStr s /\ nonempty s = true /\ int_of_string s = None.
Proof.
  unfold raises, takes_auto. intros [e He].
  destruct b as [|[]|z|s]; simpl in He; try discriminate.
  - destruct (z =? 0); discriminate.
  - destruct s as [|a s]; [discriminate|]. simpl in He.
    destruct (int_of_string (String a s)) eqn:E; [discriminate|].
    now exists (String a s).
Qed.
End EncoderBuilderFacts.

(** X5. The settings form shows one group of fields at a time: with
    [advanced] on, exactly [if_not_found], [use_codec_lib] and [bitrate]
    are hidden; with it off, exactly [custom_options] is hidden. The
    [advanced] switch itself is never hidden. *)
Theorem form_hides_inactive_fields (settings : EncoderAudioCustom.Settings)
    (key : string) :
  Observations.hidden (EncoderAudioCustom.form_settings settings) key <->
  (EncoderAudioCustom.advanced settings = true /\
   (key = "if_not_found" \/ key = "use_codec_lib" \/ key = "bitrate")) \/
  (EncoderAudioCustom.advanced settings = false /\ key = "custom_options").
Proof.
  unfold Observations.hidden, EncoderAudioCustom.form_settings,
    EncoderAudioCustom.__set_custom_options_form_settings,
    EncoderAudioCustom.__set_if_not_found_options_form_settings,
    EncoderAudioCustom.__set_use_codec_lib_options_form_settings,
    EncoderAudioCustom.__set_bitrate_options_form_settings.
  destruct (EncoderAudioCustom.advanced settings); simpl negb; cbv iota;
    (destruct (decide (key = "advanced")) as [->|H1];
     [vm_compute; split; [discriminate | intros [[_ [|[|]]]|[_ ?]]; discriminate]|];
     destruct (decide (key = "custom_options")) as [->|H2];
     [vm_compute; split; [auto; discriminate | auto; intros [[_ [|[|]]]|[? _]]; discriminate]|];
     destruct (decide (key = "if_not_found")) as [->|H3];
     [vm_compute; split; [auto; discriminate | auto; intros [[? _]|[_ ?]]; discriminate]|];
     destruct (decide (key = "use_codec_lib")) as [->|H4];
     [vm_compute; split; [auto; discriminate | auto; intros [[? _]|[_ ?]]; discriminate]|];
     destruct (decide (key = "bitrate")) as [->|H5];
     [vm_compute; split; [auto; discriminate | auto; intros [[? _]|[_ ?]]; discriminate]|];
     rewrite !lookup_insert_ne, lookup_singleton_ne by congruence; simpl;
     split; [discriminate | intros [[_ [|[|]]]|[_ ?]]; congruence]).
Qed.

(** X6. Advanced mode only appends: with [advanced] on, the builder
    returns what it returns with [advanced] off, with the words of
    [custom_options] added at the end of [stream_encoding]; it logs and
    raises the same. The settings the form hides in advanced mode
    still decide the first eight arguments. *)
Theorem advanced_only_appends (lib : FFmpeg.FFmpegLib)
    (settings : EncoderAudioCustom.Settings) (self : FFmpeg.MapperT lib)
    (stream_info : FFmpeg.StreamInfo) (stream_id : Z) :
  EncoderAudioCustom.custom_stream_mapping lib
    (Observations.with_advanced true settings) self stream_info stream_id
  = FFmpeg.bind
      (EncoderAudioCustom.custom_stream_mapping lib
         (Observations.with_advanced false settings) self stream_info stream_id)
      (fun r =>
         FFmpeg.ret
           {| FFmpeg.stream_mapping := FFmpeg.stream_mapping r;
              FFmpeg.stream_encoding :=
                List.app (FFmpeg.stream_encoding r)
                  (Py.split_ws (EncoderAudioCustom.custom_options settings)) |}).
Proof.
  rewrite !custom_stream_mapping_unfold. simpl.
  destruct (Observations.takes_auto (EncoderAudioCustom.bitrate settings))
    as [t [auto|e]]; simpl; [|reflexivity].
  destruct auto; simpl.
  - destruct (EncoderAudioCustom.calculate_bitrate stream_info) as [t' [b|e]];
      simpl; [|reflexivity].
    now rewrite !app_nil_r.
  - now rewrite !app_nil_r.
Qed.

(** X7. Whenever the builder returns, it maps [0:a:<stream_id>] and its
    encoding starts with the same eight arguments: codec, bitrate in [k],
    channel count and the channel-layout filter, each tagged with the
    stream id. The channel argument is the stream's [channels], and [0]
    when the stream has none. Only the words of [custom_options] follow,
    and only in advanced mode. *)
Theorem builder_shape (lib : FFmpeg.FFmpegLib)
    (settings : EncoderAudioCustom.Settings) (self : FFmpeg.MapperT lib)
    (stream_info : FFmpeg.StreamInfo) (stream_id : Z) (r : FFmpeg.Mapping) :
  FFmpeg.outcome
    (EncoderAudioCustom.custom_stream_mapping lib settings self stream_info stream_id)
  = Py.Ok r ->
  FFmpeg.stream_mapping r = ["-map"; "0:a:" ++ Py.str_of_Z stream_id] /\
  exists b,
    FFmpeg.stream_encoding r
    = List.app
        [ "-c:a:" ++ Py.str_of_Z stream_id;
         EncoderAudioCustom.use_codec_lib settings;
         "-b:a:" ++ Py.str_of_Z stream_id;
         b ++ "k";
         "-ac:a:" ++ Py.str_of_Z stream_id;
         Py.str_of_Z (default 0 (FFmpeg.channels stream_info));
         "-af:a:" ++ Py.str_of_Z stream_id;
         "aformat=channel_layouts='7.1|5.1|stereo|mono'" ]
        (if EncoderAudioCustom.advanced settings
         then Py.split_ws (EncoderAudioCustom.custom_options settings)
         else []).
Proof.
  rewrite custom_stream_mapping_unfold.
  destruct (Observations.takes_auto (EncoderAudioCustom.bitrate settings))
    as [t [auto|e]]; simpl; [|discriminate].
  destruct auto; simpl.
  - destruct (EncoderAudioCustom.calculate_bitrate stream_info) as [t' [b|e]];
      simpl; [|discriminate].
    intros [= <-]. split; [reflexivity|]. now eexists.
  - intros [= <-]. split; [reflexivity|]. now eexists.
Qed.

Lemma builder_shape_witness :
  FFmpeg.stream_mapping
    {| FFmpeg.stream_mapping := ["-map"; "0:a:1"];
       FFmpeg.stream_encoding :=
         ["-c:a:1"; "libopus"; "-b:a:1"; "64k"; "-ac:a:1"; "0"; "-af:a:1";
          "aformat=channel_layouts='7.1|5.1|stereo|mono'"] |}
  = ["-map"; "0:a:" ++ Py.str_of_Z 1] /\
  exists b,
    FFmpeg.stream_encoding
      {| FFmpeg.stream_mapping := ["-map"; "0:a:1"];
         FFmpeg.stream_encoding :=
           ["-c:a:1"; "libopus"; "-b:a:1"; "64k"; "-ac:a:1"; "0"; "-af:a:1";
            "aformat=channel_layouts='7.1|5.1|stereo|mono'"] |}
    = List.app
        [ "-c:a:" ++ Py.str_of_Z 1;
         EncoderAudioCustom.use_codec_lib EncoderAudioCustom.default_settings;
         "-b:a:" ++ Py.str_of_Z 1;
         b ++ "k";
         "-ac:a:" ++ Py.str_of_Z 1;
         Py.str_of_Z (default 0 (FFmpeg.channels (Samples.audio_stream "ac3" None None)));
         "-af:a:" ++ Py.str_of_Z 1;
         "aformat=channel_layouts='7.1|5.1|stereo|mono'" ]
        (if EncoderAudioCustom.advanced EncoderAudioCustom.default_settings
         then Py.split_ws
                (EncoderAudioCustom.custom_options EncoderAudioCustom.default_settings)
         else []).
Proof.
  apply (builder_shape Samples.lib EncoderAudioCustom.default_settings
           Samples.film_mapper (Samples.audio_stream "ac3" None None) 1).
  reflexivity.
Defined.

(** X8. A configured bitrate that [int] reads as a non-zero number is
    passed on as it is written, followed by [k]; [calculate_bitrate] is
    not called and nothing is logged, whatever the stream's channels. *)
Theorem configured_bitrate_verbatim (lib : FFmpeg.FFmpegLib)
    (settings : EncoderAudioCustom.Settings) (self : FFmpeg.MapperT lib)
    (stream_info : FFmpeg.StreamInfo) (stream_id n : Z) :
  FFmpeg.outcome (EncoderAudioCustom.int (EncoderAudioCustom.bitrate settings))
  = Py.Ok n ->
  n <> 0 ->
  Observations.bitrate_argument
    (EncoderAudioCustom.custom_stream_mapping lib settings self stream_info stream_id)
  = Some (Py.str (EncoderAudioCustom.bitrate settings) ++ "k") /\
  FFmpeg.trace
    (EncoderAudioCustom.custom_stream_mapping lib settings self stream_info stream_id)
  = [].
Proof.
  intros Hint Hn. rewrite custom_stream_mapping_unfold.
  rewrite (takes_auto_configured _ n Hint Hn). split; reflexivity.
Qed.

Lemma configured_bitrate_verbatim_witness :
  Observations.bitrate_argument
    (EncoderAudioCustom.custom_stream_mapping Samples.lib
       (Samples.typed_bitrate " 1_92 ") Samples.film_mapper
       (Samples.audio_stream "ac3" (Some 6) None) 0)
  = Some " 1_92 k" /\
  FFmpeg.trace
    (EncoderAudioCustom.custom_stream_mapping Samples.lib
       (Samples.typed_bitrate " 1_92 ") Samples.film_mapper
       (Samples.audio_stream "ac3" (Some 6) None) 0)
  = [].
Proof.
  apply (configured_bitrate_verbatim Samples.lib (Samples.typed_bitrate " 1_92 ")
           Samples.film_mapper (Samples.audio_stream "ac3" (Some 6) None) 0 192).
  - reflexivity.
  - lia.
Defined.

(** X9. The builder raises exactly when the configured bitrate is a
    non-empty text that [int] rejects; it then raises [ValueError] without
    logging. For every other configuration it returns for every stream. *)
Theorem builder_raises_on_malformed_bitrate (lib : FFmpeg.FFmpegLib)
    (settings : EncoderAudioCustom.Settings) (self : FFmpeg.MapperT lib)
    (stream_info : FFmpeg.StreamInfo) (stream_id : Z) :
  (Observations.raises
     (EncoderAudioCustom.custom_stream_mapping lib settings self stream_info stream_id)
   <-> Observations.malformed_bitrate (EncoderAudioCustom.bitrate settings)) /\
  (Observations.malformed_bitrate (EncoderAudioCustom.bitrate settings) ->
   EncoderAudioCustom.custom_stream_mapping lib settings self stream_info stream_id
   = ([], Py.Raise Py.ValueError)).
Proof.
  assert (Hthen : Observations.malformed_bitrate (EncoderAudioCustom.bitrate settings) ->
            EncoderAudioCustom.custom_stream_mapping lib settings self stream_info stream_id
            = ([], Py.Raise Py.ValueError)).
  { intros (s & Hb & Hne & Hs). rewrite custom_stream_mapping_unfold, Hb.
    unfold Observations.takes_auto. simpl. rewrite Hne. simpl. rewrite Hs. reflexivity. }
  split; [split|exact Hthen].
  - intros Hr. rewrite custom_stream_mapping_unfold in Hr.
    destruct (Observations.takes_auto (EncoderAudioCustom.bitrate settings))
      as [t [auto|e]] eqn:E.
    + exfalso. destruct Hr as [e He]. destruct auto; simpl in He.
      * destruct (calculate_bitrate_returns stream_info) as (tp & args & b & Hc & _).
        rewrite Hc in He. discriminate He.
      * discriminate He.
    + apply takes_auto_raises. rewrite E. now exists e.
  - intros Hm. rewrite (Hthen Hm). now exists Py.ValueError.
Qed.

Lemma builder_raises_on_malformed_bitrate_witness :
  EncoderAudioCustom.custom_stream_mapping Samples.lib (Samples.typed_bitrate "128k")
    Samples.film_mapper Samples.commentary_audio 0
  = ([], Py.Raise Py.ValueError).
Proof.
  apply (proj2 (builder_raises_on_malformed_bitrate Samples.lib
                  (Samples.typed_bitrate "128k") Samples.film_mapper
                  Samples.commentary_audio 0)).
  exists "128k". repeat split; reflexivity.
Defined.

(** X10. [calculate_bitrate] never raises and logs exactly one debug
    record; its result is a multiple of 64, it is 64 when the stream has
    no channel count, and at least 64 for every channel count that is not
    negative. *)
Theorem calculate_bitrate_floor (stream_info : FFmpeg.StreamInfo) :
  exists template args b,
    EncoderAudioCustom.calculate_bitrate stream_info
    = ([FFmpeg.Log EncoderAudioCustom.logger Py.DEBUG template args], Py.Ok b) /\
    (64 | b) /\
    (FFmpeg.channels stream_info = None -> b = 64) /\
    (forall c, FFmpeg.channels stream_info = Some c -> 0 <= c -> 64 <= b).
Proof.
  destruct (calculate_bitrate_returns stream_info)
    as (template & args & b & Hc & [[-> Hz]|(c & Hs & Hne & ->)]);
    exists template, args; eexists; (split; [exact Hc|]).
  - split; [exists 1; lia|]. split; [reflexivity | intros; lia].
  - split; [exists c; lia|]. split; [congruence|].
    intros c' Hc' Hpos. assert (c' = c) by congruence. lia.
Qed.

(** X11. The predicate of the encoder raises exactly when the stream has
    no [codec_name]: then it raises [AttributeError]; it never logs. *)
Theorem encoder_predicate_raises_without_codec_name (lib : FFmpeg.FFmpegLib)
    (settings : EncoderAudioCustom.Settings) (self : FFmpeg.MapperT lib)
    (stream_info : FFmpeg.StreamInfo) :
  (Observations.raises
     (EncoderAudioCustom.test_stream_needs_processing lib settings self stream_info)
   <-> FFmpeg.codec_name stream_info = None) /\
  (FFmpeg.codec_name stream_info = None ->
   EncoderAudioCustom.test_stream_needs_processing lib settings self stream_info
   = ([], Py.Raise Py.AttributeError)) /\
  FFmpeg.trace
    (EncoderAudioCustom.test_stream_needs_processing lib settings self stream_info)
  = [].
Proof.
  unfold Observations.raises.
  destruct (FFmpeg.codec_name stream_info) as [name|] eqn:E.
  - rewrite (test_stream_needs_processing_spec lib settings self stream_info name E).
    split; [split; [intros [e He]; discriminate He | discriminate]|].
    split; [discriminate | reflexivity].
  - unfold EncoderAudioCustom.test_stream_needs_processing. rewrite E.
    split; [split; [reflexivity | intros _; now exists Py.AttributeError]|].
    split; reflexivity.
Qed.

Lemma encoder_predicate_raises_without_codec_name_witness :
  EncoderAudioCustom.test_stream_needs_processing Samples.lib
    EncoderAudioCustom.default_settings Samples.film_mapper
    {| FFmpeg.index := Some 2; FFmpeg.codec_type := Some "audio";
       FFmpeg.codec_name := None; FFmpeg.channels := Some 2; FFmpeg.tags := None |}
  = ([], Py.Raise Py.AttributeError).
Proof.
  apply (proj1 (proj2 (encoder_predicate_raises_without_codec_name Samples.lib
                         EncoderAudioCustom.default_settings Samples.film_mapper _))).
  reflexivity.
Defined.

(** ** The runner hooks: every run *)
Section HookRuns.
Import Py FFmpeg Observations.
Variable lib : FFmpegLib.

Lemma remove_file_test_runs (settings : RemoveStreamByLanguage.Settings)
    (data d : gmap string Val) :
  outcome (RemoveStreamByLanguage.on_library_management_file_test lib settings data)
  = Ok (RetData d) ->
  d = data \/ d = flagged data.
Proof.
  unfold RemoveStreamByLanguage.on_library_management_file_test,
    RemoveStreamByLanguage.probe_video.
  destruct (negb _ && negb _)%bool; [discriminate|].
  destruct (probe_file lib ["video"] (get data "path")) as [probe|]; simpl;
    [|intros [= <-]; now left].
  destruct (streams_need_processing lib _ _) as [t [[[] m]|e]]; simpl;
    [intros [= <-]; now right | intros [= <-]; now left | discriminate].
Qed.

Lemma encoder_file_test_runs (settings : EncoderAudioCustom.Settings)
    (data d : gmap string Val) :
  outcome (EncoderAudioCustom.on_library_management_file_test lib settings data)
  = Ok (RetData d) ->
  d = data \/ d = flagged data.
Proof.
  unfold EncoderAudioCustom.on_library_management_file_test,
    EncoderAudioCustom.probe_audio_video.
  destruct (probe_file lib ["audio"; "video"] (get data "path")) as [probe|]; simpl;
    [|intros [= <-]; now left].
  destruct (streams_need_processing lib _ _) as [t [[[] m]|e]]; simpl;
    [intros [= <-]; now right | intros [= <-]; now left | discriminate].
Qed.

Lemma remove_worker_runs (settings : RemoveStreamByLanguage.Settings)
    (data d : gmap string Val) :
  outcome (RemoveStreamByLanguage.on_worker_process lib settings data) = Ok d ->
  d = no_command data \/ exists args probe, d = with_command data args probe.
Proof.
  unfold RemoveStreamByLanguage.on_worker_process,
    RemoveStreamByLanguage.probe_video.
  fold (no_command data). rewrite !no_command_get by discriminate.
  destruct (probe_file lib ["video"] (get data "file_in")) as [probe|]; simpl;
    [|intros [= <-]; now left].
  destruct (streams_need_processing lib _ _) as [t [[[] m]|e]]; simpl;
    [|intros [= <-]; now left | discriminate].
  destruct (get_ffmpeg_args lib _ _ _) as [t' [args|e]]; simpl; [|discriminate].
  intros [= <-]. right. now exists args, probe.
Qed.

Lemma encoder_worker_runs (settings : EncoderAudioCustom.Settings)
    (data d : gmap string Val) :
  outcome (EncoderAudioCustom.on_worker_process lib settings data) = Ok d ->
  d = no_command data \/ exists args probe, d = with_command data args probe.
Proof.
  unfold EncoderAudioCustom.on_worker_process,
    EncoderAudioCustom.probe_audio_video.
  fold (no_command data). rewrite !no_command_get by discriminate.
  destruct (probe_file lib ["audio"; "video"] (get data "file_in")) as [probe|]; simpl;
    [|intros [= <-]; now left].
  destruct (streams_need_processing lib _ _) as [t [[[] m]|e]]; simpl;
    [|intros [= <-]; now left | discriminate].
  destruct (get_ffmpeg_args lib _ _ _) as [t' [args|e]]; simpl; [|discriminate].
  intros [= <-]. right. now exists args, probe.
Qed.

(** What a returned worker dict looks like. *)
Lemma worker_dict_shape (data d : gmap string Val) :
  d = no_command data \/ (exists args probe, d = with_command data args probe) ->
  d !! "repeat" = Some VFalse /\
  (exists command, d !! "exec_command" = Some (VList command) /\
                   (command = [] \/ exists args, command = "ffmpeg" :: args)) /\
  (forall k, ~ worker_key k -> d !! k = data !! k).
Proof.
  unfold worker_key.
  intros [->|(args & probe & ->)]; unfold with_command, no_command.
  - split; [apply lookup_insert_eq|]. split.
    + exists []. split; [|now left].
      rewrite lookup_insert_ne by discriminate. apply lookup_insert_eq.
    + intros k Hk. rewrite !lookup_insert_ne; [reflexivity | |]; intros <-; tauto.
  - split; [now rewrite !lookup_insert_ne by discriminate; apply lookup_insert_eq|].
    split.
    + exists ("ffmpeg" :: args). split; [|right; now exists args].
      rewrite lookup_insert_ne by discriminate. apply lookup_insert_eq.
    + intros k Hk. rewrite !lookup_insert_ne; [reflexivity | | | |]; intros <-; tauto.
Qed.
End HookRuns.

(** X12. A file test changes nothing but the flag, and only upwards:
    whenever [on_library_management_file_test] of either plugin returns a
    dict, that dict is the one it received, or the one it received with
    [add_file_to_pending_tasks] set to [True]. A flag raised by an earlier
    plugin is never cleared. *)
Theorem file_test_only_sets_flag (lib : FFmpeg.FFmpegLib)
    (remove_settings : RemoveStreamByLanguage.Settings)
    (encoder_settings : EncoderAudioCustom.Settings)
    (data d : gmap string FFmpeg.Val) :
  FFmpeg.outcome
    (RemoveStreamByLanguage.on_library_management_file_test lib remove_settings data)
  = Py.Ok (FFmpeg.RetData d) \/
  FFmpeg.outcome
    (EncoderAudioCustom.on_library_management_file_test lib encoder_settings data)
  = Py.Ok (FFmpeg.RetData d) ->
  (d = data \/ d = Observations.flagged data) /\
  (forall k, k <> "add_file_to_pending_tasks" -> d !! k = data !! k) /\
  (data !! "add_file_to_pending_tasks" = Some FFmpeg.VTrue ->
   d !! "add_file_to_pending_tasks" = Some FFmpeg.VTrue).
Proof.
  intros H.
  assert (Hd : d = data \/ d = Observations.flagged data).
  { destruct H as [H|H];
      [eapply remove_file_test_runs | eapply encoder_file_test_runs]; exact H. }
  split; [exact Hd|].
  destruct Hd as [->| ->]; unfold Observations.flagged.
  - split; auto.
  - split.
    + intros k Hk. apply lookup_insert_ne. congruence.
    + intros _. apply lookup_insert_eq.
Qed.

Lemma file_test_only_sets_flag_witness :
  (Observations.flagged Samples.film_task = Samples.film_task \/
   Observations.flagged Samples.film_task = Observations.flagged Samples.film_task) /\
  (forall k, k <> "add_file_to_pending_tasks" ->
             Observations.flagged Samples.film_task !! k = Samples.film_task !! k) /\
  (Samples.film_task !! "add_file_to_pending_tasks" = Some FFmpeg.VTrue ->
   Observations.flagged Samples.film_task !! "add_file_to_pending_tasks"
   = Some FFmpeg.VTrue).
Proof.
  apply (file_test_only_sets_flag Samples.lib Samples.remove_commentary
           EncoderAudioCustom.default_settings Samples.film_task
           (Observations.flagged Samples.film_task)).
  right. vm_compute. reflexivity.
Defined.

(** X13. A positive verdict flags the file: when the probe succeeds and
    [streams_need_processing] returns [True], the file test of either
    plugin returns the dict with [add_file_to_pending_tasks] set to
    [True] (the remover only once a language list is configured). *)
Theorem file_test_flags_on_work (lib : FFmpeg.FFmpegLib)
    (remove_settings : RemoveStreamByLanguage.Settings)
    (encoder_settings : EncoderAudioCustom.Settings)
    (data : gmap string FFmpeg.Val) (probe : FFmpeg.ProbeResult) :
  (Observations.configured remove_settings ->
   FFmpeg.probe_file lib ["video"] (FFmpeg.get data "path") = Some probe ->
   Observations.verdict
     (FFmpeg.streams_need_processing lib
        (RemoveStreamByLanguage.test_stream_needs_processing lib remove_settings)
        (RemoveStreamByLanguage.prepare_mapper lib probe (FFmpeg.get data "path")))
   = Some true ->
   FFmpeg.outcome
     (RemoveStreamByLanguage.on_library_management_file_test lib remove_settings data)
   = Py.Ok (FFmpeg.RetData (Observations.flagged data))) /\
  (FFmpeg.probe_file lib ["audio"; "video"] (FFmpeg.get data "path") = Some probe ->
   Observations.verdict
     (FFmpeg.streams_need_processing lib
        (EncoderAudioCustom.test_stream_needs_processing lib encoder_settings)
        (EncoderAudioCustom.prepare_mapper lib probe))
   = Some true ->
   FFmpeg.outcome
     (EncoderAudioCustom.on_library_management_file_test lib encoder_settings data)
   = Py.Ok (FFmpeg.RetData (Observations.flagged data))).
Proof.
  unfold Observations.verdict, FFmpeg.outcome. split.
  - intros Hc Hp Hv.
    unfold RemoveStreamByLanguage.on_library_management_file_test,
      RemoveStreamByLanguage.probe_video.
    replace (negb _ && negb _)%bool with false
      by (destruct Hc as [-> | ->]; [reflexivity | now rewrite andb_false_r]).
    rewrite Hp. simpl.
    destruct (FFmpeg.streams_need_processing lib _ _) as [t [[b m]|e]];
      simpl in *; [|discriminate].
    injection Hv as ->. reflexivity.
  - intros Hp Hv.
    unfold EncoderAudioCustom.on_library_management_file_test,
      EncoderAudioCustom.probe_audio_video.
    rewrite Hp. simpl.
    destruct (FFmpeg.streams_need_processing lib _ _) as [t [[b m]|e]];
      simpl in *; [|discriminate].
    injection Hv as ->. reflexivity.
Qed.

Lemma file_test_flags_on_work_witness :
  FFmpeg.outcome
    (RemoveStreamByLanguage.on_library_management_file_test Samples.lib
       Samples.remove_commentary Samples.film_task)
  = Py.Ok (FFmpeg.RetData (Observations.flagged Samples.film_task)) /\
  FFmpeg.outcome
    (EncoderAudioCustom.on_library_management_file_test Samples.lib
       EncoderAudioCustom.default_settings Samples.film_task)
  = Py.Ok (FFmpeg.RetData (Observations.flagged Samples.film_task)).
Proof.
  pose proof (file_test_flags_on_work Samples.lib Samples.remove_commentary
                EncoderAudioCustom.default_settings Samples.film_task Samples.film)
    as [HR HE].
  split.
  - apply HR; [right; reflexivity | reflexivity | vm_compute; reflexivity].
  - apply HE; [reflexivity | vm_compute; reflexivity].
Defined.

(** X14. A positive verdict yields the command: when the probe succeeds,
    [streams_need_processing] returns [True] and [get_ffmpeg_args]
    returns [args], [on_worker_process] of either plugin returns the dict
    with [exec_command = ['ffmpeg'] + args], the progress parser of the
    probe and [repeat = False]. The remover sets the input file before
    the verdict, the encoder after it; both set the output file from
    [file_out] before asking for the arguments. *)
Theorem worker_builds_command (lib : FFmpeg.FFmpegLib)
    (remove_settings : RemoveStreamByLanguage.Settings)
    (encoder_settings : EncoderAudioCustom.Settings)
    (data : gmap string FFmpeg.Val) (probe : FFmpeg.ProbeResult)
    (remove_mapper encoder_mapper : FFmpeg.MapperT lib)
    (remove_args encoder_args : list string) :
  (FFmpeg.probe_file lib ["video"] (FFmpeg.get data "file_in") = Some probe ->
   FFmpeg.outcome
     (FFmpeg.streams_need_processing lib
        (RemoveStreamByLanguage.test_stream_needs_processing lib remove_settings)
        (RemoveStreamByLanguage.prepare_mapper lib probe (FFmpeg.get data "file_in")))
   = Py.Ok (true, remove_mapper) ->
   FFmpeg.outcome
     (FFmpeg.get_ffmpeg_args lib
        (RemoveStreamByLanguage.test_stream_needs_processing lib remove_settings)
        (RemoveStreamByLanguage.custom_stream_mapping lib)
        (FFmpeg.set_output_file lib remove_mapper (FFmpeg.get data "file_out")))
   = Py.Ok remove_args ->
   FFmpeg.outcome (RemoveStreamByLanguage.on_worker_process lib remove_settings data)
   = Py.Ok (Observations.with_command data remove_args probe)) /\
  (FFmpeg.probe_file lib ["audio"; "video"] (FFmpeg.get data "file_in") = Some probe ->
   FFmpeg.outcome
     (FFmpeg.streams_need_processing lib
        (EncoderAudioCustom.test_stream_needs_processing lib encoder_settings)
        (EncoderAudioCustom.prepare_mapper lib probe))
   = Py.Ok (true, encoder_mapper) ->
   FFmpeg.outcome
     (FFmpeg.get_ffmpeg_args lib
        (EncoderAudioCustom.test_stream_needs_processing lib encoder_settings)
        (EncoderAudioCustom.custom_stream_mapping lib encoder_settings)
        (FFmpeg.set_output_file lib
           (FFmpeg.set_input_file lib encoder_mapper (FFmpeg.get data "file_in"))
           (FFmpeg.get data "file_out")))
   = Py.Ok encoder_args ->
   FFmpeg.outcome (EncoderAudioCustom.on_worker_process lib encoder_settings data)
   = Py.Ok (Observations.with_command data encoder_args probe)).
Proof.
  unfold FFmpeg.outcome. split; intros Hp Hv Ha.
  - unfold RemoveStreamByLanguage.on_worker_process,
      RemoveStreamByLanguage.probe_video.
    fold (Observations.no_command data).
    rewrite !no_command_get by discriminate. rewrite Hp. simpl.
    destruct (FFmpeg.streams_need_processing lib _ _) as [t [[b m]|e]];
      simpl in *; [|discriminate].
    injection Hv as -> ->. simpl.
    destruct (FFmpeg.get_ffmpeg_args lib _ _ _) as [t' [args|e]];
      simpl in *; [|discriminate].
    injection Ha as ->. reflexivity.
  - unfold EncoderAudioCustom.on_worker_process,
      EncoderAudioCustom.probe_audio_video.
    fold (Observations.no_command data).
    rewrite !no_command_get by discriminate. rewrite Hp. simpl.
    destruct (FFmpeg.streams_need_processing lib _ _) as [t [[b m]|e]];
      simpl in *; [|discriminate].
    injection Hv as -> ->. simpl.
    destruct (FFmpeg.get_ffmpeg_args lib _ _ _) as [t' [args|e]];
      simpl in *; [|discriminate].
    injection Ha as ->. reflexivity.
Qed.

Lemma worker_builds_command_witness :
  FFmpeg.outcome
    (RemoveStreamByLanguage.on_worker_process Samples.lib
       Samples.remove_commentary Samples.film_task)
  = Py.Ok (Observations.with_command Samples.film_task [] Samples.film) /\
  FFmpeg.outcome
    (EncoderAudioCustom.on_worker_process Samples.lib
       EncoderAudioCustom.default_settings Samples.film_task)
  = Py.Ok (Observations.with_command Samples.film_task
             ["-map"; "0:a:0"; "-c:a:0"; "libopus"; "-b:a:0"; "128k";
              "-ac:a:0"; "2"; "-af:a:0";
              "aformat=channel_layouts='7.1|5.1|stereo|mono'"]
             Samples.film).
Proof.
  pose proof (worker_builds_command Samples.lib Samples.remove_commentary
                EncoderAudioCustom.default_settings Samples.film_task Samples.film
                (RemoveStreamByLanguage.prepare_mapper Samples.lib Samples.film
                   Samples.film_path)
                (EncoderAudioCustom.prepare_mapper Samples.lib Samples.film)
                []
                ["-map"; "0:a:0"; "-c:a:0"; "libopus"; "-b:a:0"; "128k";
                 "-ac:a:0"; "2"; "-af:a:0";
                 "aformat=channel_layouts='7.1|5.1|stereo|mono'"])
    as [HR HE].
  split.
  - apply HR; vm_compute; reflexivity.
  - apply HE; vm_compute; reflexivity.
Defined.

(** X15. Whatever the library does, a worker hook that returns has set
    [repeat] to [False], has left in [exec_command] either the empty list
    or a list that starts with [ffmpeg], and has changed no key other
    than [exec_command], [repeat] and [command_progress_parser]. *)
Theorem worker_dict_invariant (lib : FFmpeg.FFmpegLib)
    (remove_settings : RemoveStreamByLanguage.Settings)
    (encoder_settings : EncoderAudioCustom.Settings)
    (data d : gmap string FFmpeg.Val) :
  FFmpeg.outcome (RemoveStreamByLanguage.on_worker_process lib remove_settings data)
  = Py.Ok d \/
  FFmpeg.outcome (EncoderAudioCustom.on_worker_process lib encoder_settings data)
  = Py.Ok d ->
  d !! "repeat" = Some FFmpeg.VFalse /\
  (exists command,
      d !! "exec_command" = Some (FFmpeg.VList command) /\
      (command = [] \/ exists args, command = "ffmpeg" :: args)) /\
  (forall k, ~ Observations.worker_key k -> d !! k = data !! k).
Proof.
  intros H. apply worker_dict_shape.
  destruct H as [H|H];
    [eapply remove_worker_runs | eapply encoder_worker_runs]; exact H.
Qed.

Lemma worker_dict_invariant_witness :
  Observations.with_command Samples.film_task [] Samples.film !! "repeat"
  = Some FFmpeg.VFalse /\
  (exists command,
      Observations.with_command Samples.film_task [] Samples.film !! "exec_command"
      = Some (FFmpeg.VList command) /\
      (command = [] \/ exists args, command = "ffmpeg" :: args)) /\
  (forall k, ~ Observations.worker_key k ->
             Observations.with_command Samples.film_task [] Samples.film !! k
             = Samples.film_task !! k).
Proof.
  apply (worker_dict_invariant Samples.lib Samples.remove_commentary
           EncoderAudioCustom.default_settings Samples.film_task
           (Observations.with_command Samples.film_task [] Samples.film)).
  left. vm_compute. reflexivity.
Defined.

(** X16. The worker hooks do not catch what the library raises: when the
    probe succeeds and [streams_need_processing] raises, so does
    [on_worker_process], with the same exception. *)
Theorem worker_propagates_library_error (lib : FFmpeg.FFmpegLib)
    (remove_settings : RemoveStreamByLanguage.Settings)
    (encoder_settings : EncoderAudioCustom.Settings)
    (data : gmap string FFmpeg.Val) (probe : FFmpeg.ProbeResult) (e : Py.Exn) :
  (FFmpeg.probe_file lib ["video"] (FFmpeg.get data "file_in") = Some probe ->
   FFmpeg.outcome
     (FFmpeg.streams_need_processing lib
        (RemoveStreamByLanguage.test_stream_needs_processing lib remove_settings)
        (RemoveStreamByLanguage.prepare_mapper lib probe (FFmpeg.get data "file_in")))
   = Py.Raise e ->
   FFmpeg.outcome (RemoveStreamByLanguage.on_worker_process lib remove_settings data)
   = Py.Raise e) /\
  (FFmpeg.probe_file lib ["audio"; "video"] (FFmpeg.get data "file_in") = Some probe ->
   FFmpeg.outcome
     (FFmpeg.streams_need_processing lib
        (EncoderAudioCustom.test_stream_needs_processing lib encoder_settings)
        (EncoderAudioCustom.prepare_mapper lib probe))
   = Py.Raise e ->
   FFmpeg.outcome (EncoderAudioCustom.on_worker_process lib encoder_settings data)
   = Py.Raise e).
Proof.
  unfold FFmpeg.outcome. split; intros Hp Hv.
  - unfold RemoveStreamByLanguage.on_worker_process,
      RemoveStreamByLanguage.probe_video.
    fold (Observations.no_command data).
    rewrite !no_command_get by discriminate. rewrite Hp. simpl.
    destruct (FFmpeg.streams_need_processing lib _ _) as [t [[b m]|e']];
      simpl in *; [discriminate|]. now injection Hv as ->.
  - unfold EncoderAudioCustom.on_worker_process,
      EncoderAudioCustom.probe_audio_video.
    fold (Observations.no_command data).
    rewrite !no_command_get by discriminate. rewrite Hp. simpl.
    destruct (FFmpeg.streams_need_processing lib _ _) as [t [[b m]|e']];
      simpl in *; [discriminate|]. now injection Hv as ->.
Qed.

Lemma worker_propagates_library_error_witness :
  FFmpeg.outcome
    (RemoveStreamByLanguage.on_worker_process Samples.broken_lib
       Samples.remove_commentary Samples.film_task)
  = Py.Raise Py.TypeError /\
  FFmpeg.outcome
    (EncoderAudioCustom.on_worker_process Samples.broken_lib
       EncoderAudioCustom.default_settings Samples.film_task)
  = Py.Raise Py.TypeError.
Proof.
  pose proof (worker_propagates_library_error Samples.broken_lib
                Samples.remove_commentary EncoderAudioCustom.default_settings
                Samples.film_task Samples.film Py.TypeError) as [HR HE].
  split; [apply HR | apply HE]; reflexivity.
Defined.

(** X17. The last audio track is kept on a language match: for a stream
    that is not a subtitle and carries a [language] tag, in a file with at
    most one audio stream, and whose title contains no configured phrase,
    the tag test returns [False] whatever the language is, and logs the
    warning that the file has only one audio stream. *)
Theorem last_audio_kept_with_warning (lib : FFmpeg.FFmpegLib)
    (settings : RemoveStreamByLanguage.Settings) (self : FFmpeg.MapperT lib)
    (d : gmap string string) (language : string) (stream_id : Py.Scalar)
    (codec_type : string) :
  d !! "language" = Some language ->
  codec_type <> "subtitle" ->
  FFmpeg.audio_stream_count lib self <= 1 ->
  (forall phrase,
      In phrase (Py.filter_none (Py.split_comma
                   (RemoveStreamByLanguage.title_audio_or_sub settings))) ->
      Py.contains (Py.lower phrase)
        (Py.lower (RemoveStreamByLanguage.tag_value (Some d) "title")) = false) ->
  RemoveStreamByLanguage.test_tags_for_search_string lib settings self (Some d)
    stream_id codec_type
  = ([FFmpeg.Log RemoveStreamByLanguage.logger Py.WARNING
        "Video file '{}' has only 1 audio stream skipping strip."
        [FFmpeg.input_file lib self]],
     Py.Ok false).
Proof.
  intros Hd Hct Hn Ht. unfold RemoveStreamByLanguage.test_tags_for_search_string.
  rewrite (title_matches_false settings (Some d) Ht), andb_false_r.
  change "language" with (Py.lower "language") at 1.
  rewrite (has_tag_true d "language" language Hd).
  destruct (String.eqb_spec codec_type "subtitle"); [contradiction|].
  destruct (Z.leb_spec (FFmpeg.audio_stream_count lib self) 1); [reflexivity | lia].
Qed.

Lemma last_audio_kept_with_warning_witness :
  RemoveStreamByLanguage.test_tags_for_search_string Samples.lib
    Samples.remove_small Samples.film_mapper (Some {["language" := "eng"]})
    (Py.PyInt 1) "audio"
  = ([FFmpeg.Log RemoveStreamByLanguage.logger Py.WARNING
        "Video file '{}' has only 1 audio stream skipping strip."
        [FFmpeg.input_file Samples.lib Samples.film_mapper]],
     Py.Ok false).
Proof.
  apply (last_audio_kept_with_warning Samples.lib Samples.remove_small
           Samples.film_mapper {["language" := "eng"]} "eng" (Py.PyInt 1) "audio").
  - reflexivity.
  - discriminate.
  - vm_compute. discriminate.
  - intros phrase [].
Defined.

Lemma lowercase_setting_matches_ignoring_case_witness :
  FFmpeg.outcome
    (EncoderAudioCustom.test_stream_needs_processing Samples.lib
       EncoderAudioCustom.default_settings Samples.film_mapper
       (Samples.audio_stream "OPUS" (Some 2) None)) = Py.Ok false
  <-> Py.lower "OPUS"
      = Py.lower (EncoderAudioCustom.if_not_found EncoderAudioCustom.default_settings).
Proof.
  apply (lowercase_setting_matches_ignoring_case Samples.lib
           EncoderAudioCustom.default_settings Samples.film_mapper
           (Samples.audio_stream "OPUS" (Some 2) None) "OPUS"); reflexivity.
Defined.

Lemma calculate_bitrate_floor_witness :
  exists template args b,
    EncoderAudioCustom.calculate_bitrate (Samples.audio_stream "ac3" (Some 6) None)
    = ([FFmpeg.Log EncoderAudioCustom.logger Py.DEBUG template args], Py.Ok b) /\
    (64 | b) /\
    (FFmpeg.channels (Samples.audio_stream "ac3" (Some 6) None) = None -> b = 64) /\
    (forall c, FFmpeg.channels (Samples.audio_stream "ac3" (Some 6) None) = Some c ->
               0 <= c -> 64 <= b).
Proof.
  apply (calculate_bitrate_floor (Samples.audio_stream "ac3" (Some 6) None)).
Defined.

(** [int] is stricter than [strip]: a bitrate text that ends in a file
    separator strips to [0] but is no literal, so the builder raises
    instead of calculating the bitrate. *)
Example separator_is_no_blank_for_int :
  Py.strip Samples.zero_then_separator = "0" /\
  Py.int_of_string Samples.zero_then_separator = None /\
  Py.int_of_string " 0 " = Some 0 /\
  EncoderAudioCustom.custom_stream_mapping Samples.lib
    (Samples.typed_bitrate Samples.zero_then_separator) Samples.film_mapper
    (Samples.audio_stream "ac3" (Some 6) None) 0
  = ([], Py.Raise Py.ValueError).
Proof. repeat split; vm_compute; reflexivity. Qed.
